(** * hetzner_dyndns: the DynDNS bridge, embedded and verified

    A shallow embedding of the Go sources of the bridge:

    - [dyndns.go]: [handleUpdate], [updateDNSRecord], [isValidIPv4],
      [isValidIPv6];
    - the type declarations (DNSRecord, Zone, CreateRecordRequest,
      UpdateRecordRequest, APIError) with their JSON struct tags;
    - the client of the provider ([GetZones], [GetAllRecords],
      [UpdateRecord], [CreateRecord]) as the interface the bridge calls.

    Go strings are byte strings ([String.string]); Go's [int] is [Z];
    a pointer [*int] is [option Z]; a Go [error] is [option string]
    ([None] is [nil]).  Calls to [log.Printf] write to the process log
    only and are left out. *)

From Stdlib Require Import String Ascii List ZArith Bool Lia Arith.
Import ListNotations.

Open Scope string_scope.

(* ------------------------------------------------------------------ *)
(** ** Package strings *)

Module strings.

(** [strings.HasSuffix(s, suffix)]:
    [len(s) >= len(suffix) && s[len(s)-len(suffix):] == suffix]. *)
Definition HasSuffix (s suffix : string) : bool :=
  (String.length suffix <=? String.length s)%nat &&
  String.eqb
    (substring (String.length s - String.length suffix)
               (String.length suffix) s)
    suffix.

(** [strings.TrimSuffix(s, suffix)]: [s] without the trailing
    [suffix], or [s] itself when it does not end in [suffix]. *)
Definition TrimSuffix (s suffix : string) : string :=
  if HasSuffix s suffix
  then substring 0 (String.length s - String.length suffix) s
  else s.

(** [strings.Count(s, ":")] for a one-byte separator. *)
Fixpoint Count (s : string) (c : ascii) : nat :=
  match s with
  | EmptyString => 0
  | String a s' => (if Ascii.eqb a c then 1 else 0) + Count s' c
  end.

(** [strings.Join(elems, sep)]. *)
Fixpoint Join (elems : list string) (sep : string) : string :=
  match elems with
  | [] => ""
  | [e] => e
  | e :: rest => e ++ sep ++ Join rest sep
  end.

End strings.

(* ------------------------------------------------------------------ *)
(** ** Package net: [net.ParseIP]

    [isValidIPv4] and [isValidIPv6] ask Go's standard library whether a
    string parses as an IP address.  [ParseIP] follows the library's
    parser ([net.ParseIP] over [netip.ParseAddr]): the first of ['.'],
    [':'] and ['%'] in the string selects the dotted-decimal or the
    colon-hexadecimal grammar, and the result is the 16-byte form of the
    address, or [None] for Go's [nil]. *)

Module net.

Definition isDigit (c : ascii) : bool :=
  (48 <=? N_of_ascii c)%N && (N_of_ascii c <=? 57)%N.

(** The value of a hexadecimal digit, if [c] is one. *)
Definition hexVal (c : ascii) : option N :=
  let n := N_of_ascii c in
  if (48 <=? n)%N && (n <=? 57)%N then Some (n - 48)%N
  else if (97 <=? n)%N && (n <=? 102)%N then Some (n - 97 + 10)%N
  else if (65 <=? n)%N && (n <=? 70)%N then Some (n - 65 + 10)%N
  else None.

(** The loop of [parseIPv4Fields] over the bytes still to read:
    [first] says that the byte is the first one, [prevDot] that the
    byte before it was a dot; [val], [digLen] and [fields] (the
    octets stored so far, [pos] of them) are the loop's variables. *)
Fixpoint parseIPv4Fields_loop (s : string) (first prevDot : bool)
         (val : N) (digLen : nat) (fields : list N)
  : option (list N) :=
  match s with
  | EmptyString =>
      if (List.length fields <? 3)%nat then None
      else Some (fields ++ [val])%list
  | String c rest =>
      if isDigit c then
        if (digLen =? 1)%nat && (val =? 0)%N then None
        else
          let val' := (val * 10 + (N_of_ascii c - 48))%N in
          if (255 <? val')%N then None
          else parseIPv4Fields_loop rest false false val' (S digLen)
                                    fields
      else if Ascii.eqb c "." then
        if first || (match rest with EmptyString => true | _ => false end)
           || prevDot
        then None
        else if (List.length fields =? 3)%nat then None
        else parseIPv4Fields_loop rest false true 0%N 0%nat
                                  (fields ++ [val])%list
      else None
  end.

(** [parseIPv4Fields]: the four octets of a dotted-decimal address. *)
Definition parseIPv4Fields (s : string) : option (list N) :=
  parseIPv4Fields_loop s true false 0%N 0%nat [].

(** The inner loop of [parseIPv6] reading one group of hexadecimal
    digits: the number of digits read, their value and the rest of
    the string; [None] when the group has more than four digits. *)
Fixpoint scanHex (s : string) (off : nat) (acc : N)
  : option (nat * N * string) :=
  match s with
  | EmptyString => Some (off, acc, s)
  | String c rest =>
      match hexVal c with
      | None => Some (off, acc, s)
      | Some d =>
          let acc' := (acc * 16 + d)%N in
          if (3 <? off)%nat then None
          else if (65535 <? acc')%N then None
          else scanHex rest (S off) acc'
      end
  end.

(** How the outer loop of [parseIPv6] ends: the text left over, the
    bytes stored ([i] of them) and the place of the ellipsis. *)
Definition v6state : Type := (string * list N * option nat)%type.

(** The outer loop of [parseIPv6], [for i < 16], where [i] is the
    number of bytes stored; every turn that goes on stores two bytes,
    so [groups] counts the turns that are left. *)
Fixpoint parseIPv6_loop (groups : nat) (s : string) (ip : list N)
         (ellipsis : option nat) : option v6state :=
  match groups with
  | O => Some (s, ip, ellipsis)
  | S groups' =>
      let i := List.length ip in
      match scanHex s 0 0%N with
      | None => None
      | Some (off, acc, rest) =>
          if (off =? 0)%nat then None
          else
            match rest with
            | String "." _ =>
                if (match ellipsis with None => true | _ => false end)
                   && negb (i =? 12)%nat then None
                else if (16 <? i + 4)%nat then None
                else
                  match parseIPv4Fields s with
                  | None => None
                  | Some fields =>
                      Some (EmptyString, (ip ++ fields)%list, ellipsis)
                  end
            | _ =>
                let ip' := (ip ++ [(acc / 256)%N; (acc mod 256)%N])%list in
                match rest with
                | EmptyString => Some (EmptyString, ip', ellipsis)
                | String c rest1 =>
                    if negb (Ascii.eqb c ":") then None
                    else
                      match rest1 with
                      | EmptyString => None
                      | String ":" rest2 =>
                          match ellipsis with
                          | Some _ => None
                          | None =>
                              match rest2 with
                              | EmptyString =>
                                  Some (EmptyString, ip',
                                        Some (List.length ip'))
                              | _ =>
                                  parseIPv6_loop groups' rest2 ip'
                                    (Some (List.length ip'))
                              end
                          end
                      | _ => parseIPv6_loop groups' rest1 ip' ellipsis
                      end
                end
            end
      end
  end.

Fixpoint contains (s : string) (c : ascii) : bool :=
  match s with
  | EmptyString => false
  | String a s' => Ascii.eqb a c || contains s' c
  end.

(** [parseIPv6], for [net.ParseIP]: an address with a zone ([%]) is
    no IP for [net.ParseIP], with an empty zone it is none at all. *)
Definition parseIPv6 (s : string) : option (list N) :=
  if contains s "%" then None
  else
    let '(s1, ellipsis) :=
      match s with
      | String ":" (String ":" s2) => (s2, Some 0%nat)
      | _ => (s, None)
      end in
    match ellipsis, s1 with
    | Some _, EmptyString => Some (repeat 0%N 16)
    | _, _ =>
        match parseIPv6_loop 8 s1 [] ellipsis with
        | None => None
        | Some (rest, ip, ellipsis) =>
            match rest with
            | String _ _ => None
            | EmptyString =>
                let i := List.length ip in
                if (i <? 16)%nat then
                  match ellipsis with
                  | None => None
                  | Some e =>
                      Some (firstn e ip ++ repeat 0%N (16 - i)
                              ++ skipn e ip)%list
                  end
                else
                  match ellipsis with
                  | Some _ => None
                  | None => Some ip
                  end
            end
        end
    end.

(** [parseIPv4]: the IPv4 address in its 16-byte (IPv4-mapped) form. *)
Definition parseIPv4 (s : string) : option (list N) :=
  match parseIPv4Fields s with
  | None => None
  | Some fields =>
      Some (repeat 0%N 10 ++ [255%N; 255%N] ++ fields)%list
  end.

(** The scan of [ParseAddr] for the byte that selects the grammar. *)
Fixpoint dispatch (whole s : string) : option (list N) :=
  match s with
  | EmptyString => None
  | String c rest =>
      if Ascii.eqb c "." then parseIPv4 whole
      else if Ascii.eqb c ":" then parseIPv6 whole
      else if Ascii.eqb c "%" then None
      else dispatch whole rest
  end.

(** [net.ParseIP(s)]; [None] is [nil]. *)
Definition ParseIP (s : string) : option (list N) := dispatch s s.

End net.

(* ------------------------------------------------------------------ *)
(** ** The schema types *)

(** [type DNSRecord struct]. *)
Record DNSRecord : Type := mkDNSRecord {
  DNSRecord_ID       : string;
  DNSRecord_Type     : string;
  DNSRecord_Name     : string;
  DNSRecord_Value    : string;
  DNSRecord_TTL      : option Z;
  DNSRecord_ZoneID   : string;
  DNSRecord_Created  : string;
  DNSRecord_Modified : string
}.

(** The anonymous struct of [Zone.TxtVerification]. *)
Record TxtVerification : Type := mkTxtVerification {
  TxtVerification_Name  : string;
  TxtVerification_Token : string
}.

Section ZoneType.

(** [time.Time] belongs to Go's standard library; the bridge only
    stores and forwards the three timestamps of a zone. *)
Variable Time : Type.

(** [type Zone struct].  A slice [[]string] is [option (list string)]:
    [None] is the nil slice, [Some []] the empty one. *)
Record Zone : Type := mkZone {
  Zone_ID              : string;
  Zone_Name            : string;
  Zone_TTL             : Z;
  Zone_Registrar       : string;
  Zone_LegacyDNSHost   : string;
  Zone_LegacyNS        : option (list string);
  Zone_NS              : option (list string);
  Zone_Created         : Time;
  Zone_Verified        : Time;
  Zone_Modified        : Time;
  Zone_Project         : string;
  Zone_Owner           : string;
  Zone_Permission      : string;
  Zone_ZoneType        : string;
  Zone_Status          : string;
  Zone_Paused          : bool;
  Zone_IsSecondaryDNS  : bool;
  Zone_TxtVerification : TxtVerification;
  Zone_RecordsCount    : Z
}.

End ZoneType.

Arguments mkZone {Time}.
Arguments Zone_ID {Time}.
Arguments Zone_Name {Time}.
Arguments Zone_TTL {Time}.
Arguments Zone_Registrar {Time}.
Arguments Zone_LegacyDNSHost {Time}.
Arguments Zone_LegacyNS {Time}.
Arguments Zone_NS {Time}.
Arguments Zone_Created {Time}.
Arguments Zone_Verified {Time}.
Arguments Zone_Modified {Time}.
Arguments Zone_Project {Time}.
Arguments Zone_Owner {Time}.
Arguments Zone_Permission {Time}.
Arguments Zone_ZoneType {Time}.
Arguments Zone_Status {Time}.
Arguments Zone_Paused {Time}.
Arguments Zone_IsSecondaryDNS {Time}.
Arguments Zone_TxtVerification {Time}.
Arguments Zone_RecordsCount {Time}.

(** The anonymous struct of [APIError.Error]. *)
Record APIErrorBody : Type := mkAPIErrorBody {
  APIError_Message : string;
  APIError_Code    : Z
}.

(** [type APIError struct]. *)
Record APIError : Type := mkAPIError {
  APIError_Error : APIErrorBody
}.

(** [type CreateRecordRequest struct]. *)
Record CreateRecordRequest : Type := mkCreateRecordRequest {
  CreateRecordRequest_Type   : string;
  CreateRecordRequest_Name   : string;
  CreateRecordRequest_Value  : string;
  CreateRecordRequest_TTL    : option Z;
  CreateRecordRequest_ZoneID : string
}.

(** [type UpdateRecordRequest struct]. *)
Record UpdateRecordRequest : Type := mkUpdateRecordRequest {
  UpdateRecordRequest_Type  : string;
  UpdateRecordRequest_Name  : string;
  UpdateRecordRequest_Value : string;
  UpdateRecordRequest_TTL   : option Z
}.

(* ------------------------------------------------------------------ *)
(** ** Package net/http, as the handler uses it *)

Module http.

Definition StatusOK : Z := 200.
Definition StatusBadRequest : Z := 400.
Definition StatusUnauthorized : Z := 401.

(** The [http.ResponseWriter] handed to the handler, with what a
    recorder keeps of it: status code, headers and body.  The code is
    fixed by the first [WriteHeader] or the first write. *)
Record ResponseWriter : Type := mkResponseWriter {
  wroteHeader : bool;
  Code        : Z;
  Header      : list (string * string);
  Body        : string
}.

(** [httptest.NewRecorder()]. *)
Definition NewRecorder : ResponseWriter :=
  {| wroteHeader := false; Code := StatusOK; Header := []; Body := "" |}.

(** [w.Header().Del(key)]. *)
Definition Header_Del (key : string) (w : ResponseWriter)
  : ResponseWriter :=
  {| wroteHeader := wroteHeader w; Code := Code w;
     Header := filter (fun kv => negb (String.eqb (fst kv) key))
                      (Header w);
     Body := Body w |}.

(** [w.Header().Set(key, value)]. *)
Definition Header_Set (key value : string) (w : ResponseWriter)
  : ResponseWriter :=
  {| wroteHeader := wroteHeader w; Code := Code w;
     Header := (filter (fun kv => negb (String.eqb (fst kv) key))
                       (Header w) ++ [(key, value)])%list;
     Body := Body w |}.

(** [w.Header().Get(key)]. *)
Fixpoint Header_Get (key : string) (h : list (string * string))
  : string :=
  match h with
  | [] => ""
  | (k, v) :: rest => if String.eqb k key then v else Header_Get key rest
  end.

(** [w.WriteHeader(code)]. *)
Definition WriteHeader (code : Z) (w : ResponseWriter)
  : ResponseWriter :=
  if wroteHeader w then w
  else {| wroteHeader := true; Code := code; Header := Header w;
          Body := Body w |}.

(** [w.Write(text)], the effect of [fmt.Fprintf(w, ...)]. *)
Definition Write (text : string) (w : ResponseWriter)
  : ResponseWriter :=
  let w := WriteHeader StatusOK w in
  {| wroteHeader := true; Code := Code w; Header := Header w;
     Body := Body w ++ text |}.

Definition newline : string := String (ascii_of_nat 10) EmptyString.

(** [http.Error(w, error, code)]. *)
Definition Error (w : ResponseWriter) (error : string) (code : Z)
  : ResponseWriter :=
  let w := Header_Del "Content-Length" w in
  let w := Header_Set "Content-Type" "text/plain; charset=utf-8" w in
  let w := Header_Set "X-Content-Type-Options" "nosniff" w in
  let w := WriteHeader code w in
  Write (error ++ newline) w.

(** The [*http.Request], as far as the handler reads it: the result
    [(username, password, ok)] of [r.BasicAuth()] and the pairs of
    [r.URL.Query()] in the order of the query string. *)
Record Request : Type := mkRequest {
  BasicAuth : string * string * bool;
  URL_Query : list (string * string)
}.

(** [url.Values.Get(key)]: the first value of [key], or [""]. *)
Fixpoint Get (q : list (string * string)) (key : string) : string :=
  match q with
  | [] => ""
  | (k, v) :: rest => if String.eqb k key then v else Get rest key
  end.

End http.

(* ------------------------------------------------------------------ *)
(** ** The provider client, as the bridge sees it *)

(** What the four client methods return: a value or a Go [error]
    carrying its message. *)
Inductive result (A : Type) : Type :=
| Ok  (a : A)
| Err (e : string).

Arguments Ok {A} a.
Arguments Err {A} e.

(** One call of the bridge to the remote provider.  [CallUpdateRecord]
    also keeps the [ZoneID: targetZone.ID] that the struct literal of
    [updateDNSRecord] names next to the four declared fields. *)
Inductive Call : Type :=
| CallGetZones
| CallGetAllRecords (zoneID : string)
| CallUpdateRecord  (recordID : string) (zoneID : string)
                    (req : UpdateRecordRequest)
| CallCreateRecord  (req : CreateRecordRequest).

(** Code that talks to the provider: a state monad over the list of
    calls issued so far (oldest first). *)
Definition M (A : Type) : Type := list Call -> A * list Call.

Definition ret {A} (a : A) : M A := fun tr => (a, tr).

Definition bind {A B} (m : M A) (k : A -> M B) : M B :=
  fun tr => let (a, tr') := m tr in k a tr'.

(** Issue call [c], whose answer [answer] is read off the history. *)
Definition call {A} (c : Call) (answer : list Call -> A) : M A :=
  fun tr => (answer tr, (tr ++ [c])%list).

Notation "x <- m ;; k" := (bind m (fun x => k))
  (at level 61, m at next level, right associativity).

(** [isValidIPv4]. *)
Definition isValidIPv4 (ip : string) : bool :=
  (match net.ParseIP ip with Some _ => true | None => false end) &&
  (strings.Count ip ":" =? 0)%nat.

(** [isValidIPv6]. *)
Definition isValidIPv6 (ip : string) : bool :=
  (match net.ParseIP ip with Some _ => true | None => false end) &&
  (0 <? strings.Count ip ":")%nat.

Section Bridge.

Context {Time : Type}.

(** [type Client struct], seen from [dyndns.go]: four methods that
    answer over the network.  An answer may depend on everything the
    provider was asked before, so each method takes the calls issued
    so far. *)
Record Client : Type := mkClient {
  GetZones      : list Call -> result (list (Zone Time));
  GetAllRecords : list Call -> string -> result (list DNSRecord);
  UpdateRecord  : list Call -> string -> UpdateRecordRequest ->
                  result DNSRecord;
  CreateRecord  : list Call -> CreateRecordRequest -> result DNSRecord
}.

(** [type DynDNSServer struct]. *)
Record DynDNSServer : Type := mkDynDNSServer {
  client   : Client;
  username : string;
  password : string;
  port     : string
}.

(** [NewDynDNSServer]. *)
Definition NewDynDNSServer (c : Client) (u p po : string)
  : DynDNSServer :=
  {| client := c; username := u; password := p; port := po |}.

(** The first loop of [updateDNSRecord]: scan the zones in order and
    stop at the first one that the hostname equals or ends in (after
    a dot).  [None] is [targetZone == nil]. *)
Fixpoint findZone (hostname : string) (zones : list (Zone Time))
  : option (Zone Time * string) :=
  match zones with
  | [] => None
  | zone :: rest =>
      if String.eqb hostname (Zone_Name zone) then
        Some (zone, "@")
      else if strings.HasSuffix hostname ("." ++ Zone_Name zone) then
        Some (zone, strings.TrimSuffix hostname ("." ++ Zone_Name zone))
      else findZone hostname rest
  end.

(** The second loop of [updateDNSRecord]: the first record with the
    wanted name and type.  [None] is [existingRecord == nil]. *)
Fixpoint findRecord (recordName recordType : string)
         (records : list DNSRecord) : option DNSRecord :=
  match records with
  | [] => None
  | record :: rest =>
      if String.eqb (DNSRecord_Name record) recordName &&
         String.eqb (DNSRecord_Type record) recordType
      then Some record
      else findRecord recordName recordType rest
  end.

(** [func (s *DynDNSServer) updateDNSRecord(hostname, ip, recordType
    string) error].  The two struct literals are those of the source,
    read against the declared types: the update literal also names
    [ZoneID: targetZone.ID], which [UpdateRecordRequest] does not
    declare and the call keeps beside the request, and the creation
    literal gives [TTL: ttl] with [ttl := 3600], which the declared
    field [*int] holds as a pointer to 3600. *)
Definition updateDNSRecord (s : DynDNSServer)
           (hostname ip recordType : string) : M (option string) :=
  zones <- call CallGetZones (GetZones (client s)) ;;
  match zones with
  | Err err => ret (Some ("failed to get zones: " ++ err))
  | Ok zones =>
  match findZone hostname zones with
  | None => ret (Some ("no zone found for hostname: " ++ hostname))
  | Some (targetZone, recordName) =>
  records <- call (CallGetAllRecords (Zone_ID targetZone))
                  (fun tr => GetAllRecords (client s) tr
                                           (Zone_ID targetZone)) ;;
  match records with
  | Err err => ret (Some ("failed to get records: " ++ err))
  | Ok records =>
  match findRecord recordName recordType records with
  | Some existingRecord =>
      let updateReq :=
        {| UpdateRecordRequest_Type  := recordType;
           UpdateRecordRequest_Name  := recordName;
           UpdateRecordRequest_Value := ip;
           UpdateRecordRequest_TTL   := DNSRecord_TTL existingRecord |} in
      updated <- call (CallUpdateRecord (DNSRecord_ID existingRecord)
                                        (Zone_ID targetZone) updateReq)
                      (fun tr => UpdateRecord (client s) tr
                                   (DNSRecord_ID existingRecord)
                                   updateReq) ;;
      match updated with
      | Err err => ret (Some ("failed to update record: " ++ err))
      | Ok _ => ret None
      end
  | None =>
      let ttl := 3600%Z in
      let createReq :=
        {| CreateRecordRequest_Type   := recordType;
           CreateRecordRequest_Name   := recordName;
           CreateRecordRequest_Value  := ip;
           CreateRecordRequest_TTL    := Some ttl;
           CreateRecordRequest_ZoneID := Zone_ID targetZone |} in
      created <- call (CallCreateRecord createReq)
                      (fun tr => CreateRecord (client s) tr createReq) ;;
      match created with
      | Err err => ret (Some ("failed to create record: " ++ err))
      | Ok _ => ret None
      end
  end end end end.

(** The value of the challenge header, [Basic realm=] followed by
    [DynDNS] in double quotes. *)
Definition challenge : string :=
  "Basic realm=" ++ String (ascii_of_nat 34) "DynDNS"
                 ++ String (ascii_of_nat 34) "".

(** [func (s *DynDNSServer) handleUpdate(w http.ResponseWriter,
    r *http.Request)].  A step of the handler that may [return]
    gives [inl] of the response it has written, otherwise [inr] of
    the variables it has set. *)
Definition handleUpdate (s : DynDNSServer) (w : http.ResponseWriter)
           (r : http.Request) : M http.ResponseWriter :=
  let '(user, pass, ok) := http.BasicAuth r in
  if negb ok || negb (String.eqb user (username s))
     || negb (String.eqb pass (password s)) then
    let w := http.Header_Set "WWW-Authenticate" challenge w in
    ret (http.Error w "Unauthorized" http.StatusUnauthorized)
  else
  let hostname := http.Get (http.URL_Query r) "hostname" in
  let myip := http.Get (http.URL_Query r) "myip" in
  let myipv6 := http.Get (http.URL_Query r) "myipv6" in
  let offline := http.Get (http.URL_Query r) "offline" in
  if String.eqb hostname "" then
    ret (http.Error w "Missing hostname parameter" http.StatusBadRequest)
  else
  if String.eqb offline "yes" then
    ret (http.Write "good" w)
  else
  let ipv4 := "" in
  let ipv6 := "" in
  let updateResults : list string := [] in
  match (if negb (String.eqb myip "") then
           if isValidIPv4 myip then inr myip
           else inl (http.Error w "Invalid IPv4 address"
                                http.StatusBadRequest)
         else inr ipv4) with
  | inl w => ret w
  | inr ipv4 =>
  match (if negb (String.eqb myipv6 "") then
           if isValidIPv6 myipv6 then inr myipv6
           else inl (http.Error w "Invalid IPv6 address"
                                http.StatusBadRequest)
         else inr ipv6) with
  | inl w => ret w
  | inr ipv6 =>
  if String.eqb ipv4 "" && String.eqb ipv6 "" then
    ret (http.Error w "No valid IP address provided or detected"
                    http.StatusBadRequest)
  else
  step <- (if negb (String.eqb ipv4 "") then
             err <- updateDNSRecord s hostname ipv4 "A" ;;
             match err with
             | Some _ => ret (inl (http.Write "911" w))
             | None =>
                 ret (inr (updateResults ++ [("IPv4: " ++ ipv4)%string])%list)
             end
           else ret (inr updateResults)) ;;
  match step with
  | inl w => ret w
  | inr updateResults =>
  step <- (if negb (String.eqb ipv6 "") then
             err <- updateDNSRecord s hostname ipv6 "AAAA" ;;
             match err with
             | Some _ => ret (inl (http.Write "911" w))
             | None =>
                 ret (inr (updateResults ++ [("IPv6: " ++ ipv6)%string])%list)
             end
           else ret (inr updateResults)) ;;
  match step with
  | inl w => ret w
  | inr updateResults =>
  if (0 <? List.length updateResults)%nat then
    ret (http.Write ("good " ++ strings.Join updateResults ", ") w)
  else
    ret (http.Write "good" w)
  end end end end.

End Bridge.

Arguments Client : clear implicits.
Arguments DynDNSServer : clear implicits.

(* ------------------------------------------------------------------ *)
(** ** Package unicode/utf8 *)

Module utf8.

(** What the table [first] of the package says about a leading byte
    [b >= 0x80]: the length of the sequence it starts and the range
    accepted for the second byte; [None] for a byte that starts no
    sequence. *)
Definition first (b : N) : option (nat * N * N) :=
  if (b <? 194)%N then None                      (* 80..C1 *)
  else if (b <=? 223)%N then Some (2%nat, 128%N, 191%N)  (* C2..DF *)
  else if (b =? 224)%N then Some (3%nat, 160%N, 191%N)   (* E0 *)
  else if (b <=? 236)%N then Some (3%nat, 128%N, 191%N)  (* E1..EC *)
  else if (b =? 237)%N then Some (3%nat, 128%N, 159%N)   (* ED *)
  else if (b <=? 239)%N then Some (3%nat, 128%N, 191%N)  (* EE..EF *)
  else if (b =? 240)%N then Some (4%nat, 144%N, 191%N)   (* F0 *)
  else if (b <=? 243)%N then Some (4%nat, 128%N, 191%N)  (* F1..F3 *)
  else if (b =? 244)%N then Some (4%nat, 128%N, 143%N)   (* F4 *)
  else None.                                     (* F5..FF *)

Definition continuation (c : ascii) : bool :=
  (128 <=? N_of_ascii c)%N && (N_of_ascii c <=? 191)%N.

(** The size that [utf8.DecodeRuneInString] returns for a string
    that starts with a byte [>= 0x80], when the bytes form a rune;
    [None] is [(RuneError, 1)], an invalid byte. *)
Definition runeSize (s : string) : option nat :=
  match s with
  | EmptyString => None
  | String p0 rest =>
      match first (N_of_ascii p0) with
      | None => None
      | Some (sz, lo, hi) =>
          match rest with
          | EmptyString => None
          | String b1 rest1 =>
              if negb ((lo <=? N_of_ascii b1)%N
                       && (N_of_ascii b1 <=? hi)%N) then None
              else if (sz <=? 2)%nat then Some 2%nat
              else
                match rest1 with
                | EmptyString => None
                | String b2 rest2 =>
                    if negb (continuation b2) then None
                    else if (sz <=? 3)%nat then Some 3%nat
                    else
                      match rest2 with
                      | EmptyString => None
                      | String b3 _ =>
                          if negb (continuation b3) then None
                          else Some 4%nat
                      end
                end
          end
      end
  end.

(** [utf8.ValidString(s)], reading [s] from the left; [skip] counts
    the bytes still belonging to the rune being read. *)
Fixpoint ValidString_from (skip : nat) (s : string) : bool :=
  match s with
  | EmptyString => true
  | String c rest =>
      match skip with
      | S skip' => ValidString_from skip' rest
      | O =>
          if (N_of_ascii c <? 128)%N then ValidString_from 0 rest
          else
            match runeSize s with
            | None => false
            | Some size => ValidString_from (size - 1) rest
            end
      end
  end.

Definition ValidString (s : string) : bool := ValidString_from 0 s.

End utf8.

(* ------------------------------------------------------------------ *)
(** ** Package encoding/json, on the schema types

    [json.Marshal] and [json.Unmarshal] are Go's; what the repository
    fixes is the struct declarations and their tags.  The model stops
    at the JSON document as a tree ([json.value]): [Marshal] builds the
    tree that the struct tags describe and [Unmarshal] reads a tree
    into a struct, both following the rules of the package (field
    order, [omitempty], key matching, [null], the coercion of strings
    to valid UTF-8).  The printing and parsing of the text of the
    document is the package's own affair. *)

Module json.

#[warnings="-register-all"]
Inductive value : Type :=
| Null
| Bool   (b : bool)
| Number (n : Z)
| Str    (s : string)
| Array  (elems : list value)
| Object (members : list (string * value)).

(** U+FFFD in UTF-8. *)
Definition replacement : string :=
  String (ascii_of_nat 239)
    (String (ascii_of_nat 191) (String (ascii_of_nat 189) EmptyString)).

(** The text that the encoder writes for a Go string: every byte
    that is not part of a valid UTF-8 sequence becomes U+FFFD. *)
Fixpoint coerceUTF8_from (skip : nat) (s : string) : string :=
  match s with
  | EmptyString => EmptyString
  | String c rest =>
      match skip with
      | S skip' => String c (coerceUTF8_from skip' rest)
      | O =>
          if (N_of_ascii c <? 128)%N
          then String c (coerceUTF8_from 0 rest)
          else
            match utf8.runeSize s with
            | None => replacement ++ coerceUTF8_from 0 rest
            | Some size => String c (coerceUTF8_from (size - 1) rest)
            end
      end
  end.

Definition coerceUTF8 (s : string) : string := coerceUTF8_from 0 s.

(** Go's [int] has 64 bits on the platforms the bridge is built for. *)
Definition isInt (n : Z) : bool :=
  (- 2 ^ 63 <=? n)%Z && (n <? 2 ^ 63)%Z.

(** *** Encoding of the field types *)

Definition encString (s : string) : value := Str (coerceUTF8 s).
Definition encInt (n : Z) : value := Number n.
Definition encBool (b : bool) : value := Bool b.

(** A [[]string]: [null] for the nil slice. *)
Definition encStrings (l : option (list string)) : value :=
  match l with
  | None => Null
  | Some l => Array (List.map encString l)
  end.

(** A string field tagged [omitempty]. *)
Definition omitemptyString (key s : string)
  : list (string * value) :=
  if String.eqb s "" then [] else [(key, encString s)].

(** A [*int] field tagged [omitempty]: left out when the pointer is
    nil, written (also when it points to 0) otherwise. *)
Definition omitemptyIntPtr (key : string) (p : option Z)
  : list (string * value) :=
  match p with
  | None => []
  | Some n => [(key, encInt n)]
  end.

(** *** Decoding of the field types: the JSON value and the field's
    present content give its new content, or an error *)

Definition decString (v : value) (cur : string) : option string :=
  match v with
  | Null => Some cur
  | Str s => Some s
  | _ => None
  end.

Definition decInt (v : value) (cur : Z) : option Z :=
  match v with
  | Null => Some cur
  | Number n => if isInt n then Some n else None
  | _ => None
  end.

Definition decBool (v : value) (cur : bool) : option bool :=
  match v with
  | Null => Some cur
  | Bool b => Some b
  | _ => None
  end.

(** Into a [*int]: [null] makes the pointer nil. *)
Definition decIntPtr (v : value) (cur : option Z) : option (option Z) :=
  match v with
  | Null => Some None
  | Number n => if isInt n then Some (Some n) else None
  | _ => None
  end.

Fixpoint decElems (l : list value) : option (list string) :=
  match l with
  | [] => Some []
  | v :: rest =>
      match decString v "", decElems rest with
      | Some s, Some ss => Some (s :: ss)
      | _, _ => None
      end
  end.

(** Into a [[]string]: [null] makes the slice nil, an array gives a
    slice that is not nil. *)
Definition decStrings (v : value) (cur : option (list string))
  : option (option (list string)) :=
  match v with
  | Null => Some None
  | Array l =>
      match decElems l with
      | Some ss => Some (Some ss)
      | None => None
      end
  | _ => None
  end.

(** *** Matching a key of the document to a field *)

(** [foldName]: ASCII letters in upper case, and the two runes whose
    case folding is an ASCII letter, U+212A (Kelvin sign) and U+017F
    (long s).  The other runes beyond ASCII fold to runes beyond
    ASCII, which no field name of the schema contains, and are left
    as they are. *)
Fixpoint foldName (s : string) : string :=
  match s with
  | EmptyString => EmptyString
  | String c rest =>
      let n := N_of_ascii c in
      if (97 <=? n)%N && (n <=? 122)%N then
        String (ascii_of_N (n - 32)) (foldName rest)
      else
        match n, rest with
        | 226%N, String c1 (String c2 rest2) =>
            if (N_of_ascii c1 =? 132)%N && (N_of_ascii c2 =? 170)%N
            then String "K" (foldName rest2)
            else String c (foldName rest)
        | 197%N, String c1 rest1 =>
            if (N_of_ascii c1 =? 191)%N
            then String "S" (foldName rest1)
            else String c (foldName rest)
        | _, _ => String c (foldName rest)
        end
  end.

Fixpoint indexWhere (p : string -> bool) (names : list string)
  : option nat :=
  match names with
  | [] => None
  | n :: rest =>
      if p n then Some 0%nat
      else match indexWhere p rest with
           | Some i => Some (S i)
           | None => None
           end
  end.

(** The field that a key of the document names: the field with that
    very name, else the first one equal to it under case folding. *)
Definition fieldIndex (names : list string) (key : string)
  : option nat :=
  match indexWhere (String.eqb key) names with
  | Some i => Some i
  | None =>
      indexWhere (fun n => String.eqb (foldName n) (foldName key)) names
  end.

(** Reading a document into a struct that holds [cur]: the members
    are taken in order, a member that names no field is skipped, and
    the first field that does not fit its member is an error.
    [null] changes nothing. *)
Definition decStruct {T : Type} (names : list string)
           (setField : nat -> value -> T -> option T)
           (v : value) (cur : T) : option T :=
  match v with
  | Null => Some cur
  | Object members =>
      fold_left
        (fun acc kv =>
           match acc with
           | None => None
           | Some t =>
               match fieldIndex names (fst kv) with
               | None => Some t
               | Some i => setField i (snd kv) t
               end
           end)
        members (Some cur)
  | _ => None
  end.

End json.

(* ------------------------------------------------------------------ *)
(** ** The schema types as JSON: what their struct tags say *)

Section Schema.

Import json.

(** *** DNSRecord *)

Definition DNSRecord_zero : DNSRecord :=
  mkDNSRecord "" "" "" "" None "" "" "".

Definition DNSRecord_fields : list string :=
  ["id"; "type"; "name"; "value"; "ttl"; "zone_id"; "created";
   "modified"].

Definition DNSRecord_Marshal (r : DNSRecord) : value :=
  Object (omitemptyString "id" (DNSRecord_ID r)
          ++ [("type", encString (DNSRecord_Type r));
              ("name", encString (DNSRecord_Name r));
              ("value", encString (DNSRecord_Value r))]
          ++ omitemptyIntPtr "ttl" (DNSRecord_TTL r)
          ++ omitemptyString "zone_id" (DNSRecord_ZoneID r)
          ++ omitemptyString "created" (DNSRecord_Created r)
          ++ omitemptyString "modified" (DNSRecord_Modified r))%list.

Definition DNSRecord_setField (i : nat) (v : value) (r : DNSRecord)
  : option DNSRecord :=
  let (id, ty, name, val, ttl, zid, cr, mo) := r in
  match i with
  | 0 => option_map (fun x => mkDNSRecord x ty name val ttl zid cr mo)
                    (decString v id)
  | 1 => option_map (fun x => mkDNSRecord id x name val ttl zid cr mo)
                    (decString v ty)
  | 2 => option_map (fun x => mkDNSRecord id ty x val ttl zid cr mo)
                    (decString v name)
  | 3 => option_map (fun x => mkDNSRecord id ty name x ttl zid cr mo)
                    (decString v val)
  | 4 => option_map (fun x => mkDNSRecord id ty name val x zid cr mo)
                    (decIntPtr v ttl)
  | 5 => option_map (fun x => mkDNSRecord id ty name val ttl x cr mo)
                    (decString v zid)
  | 6 => option_map (fun x => mkDNSRecord id ty name val ttl zid x mo)
                    (decString v cr)
  | 7 => option_map (fun x => mkDNSRecord id ty name val ttl zid cr x)
                    (decString v mo)
  | _ => Some r
  end%nat.

Definition DNSRecord_Unmarshal (v : value) : option DNSRecord :=
  decStruct DNSRecord_fields DNSRecord_setField v DNSRecord_zero.

(** *** CreateRecordRequest *)

Definition CreateRecordRequest_zero : CreateRecordRequest :=
  mkCreateRecordRequest "" "" "" None "".

Definition CreateRecordRequest_fields : list string :=
  ["type"; "name"; "value"; "ttl"; "zone_id"].

Definition CreateRecordRequest_Marshal (r : CreateRecordRequest)
  : value :=
  Object ([("type", encString (CreateRecordRequest_Type r));
           ("name", encString (CreateRecordRequest_Name r));
           ("value", encString (CreateRecordRequest_Value r))]
          ++ omitemptyIntPtr "ttl" (CreateRecordRequest_TTL r)
          ++ [("zone_id", encString (CreateRecordRequest_ZoneID r))])%list.

Definition CreateRecordRequest_setField (i : nat) (v : value)
           (r : CreateRecordRequest) : option CreateRecordRequest :=
  let (ty, name, val, ttl, zid) := r in
  match i with
  | 0 => option_map (fun x => mkCreateRecordRequest x name val ttl zid)
                    (decString v ty)
  | 1 => option_map (fun x => mkCreateRecordRequest ty x val ttl zid)
                    (decString v name)
  | 2 => option_map (fun x => mkCreateRecordRequest ty name x ttl zid)
                    (decString v val)
  | 3 => option_map (fun x => mkCreateRecordRequest ty name val x zid)
                    (decIntPtr v ttl)
  | 4 => option_map (fun x => mkCreateRecordRequest ty name val ttl x)
                    (decString v zid)
  | _ => Some r
  end%nat.

Definition CreateRecordRequest_Unmarshal (v : value)
  : option CreateRecordRequest :=
  decStruct CreateRecordRequest_fields CreateRecordRequest_setField v
            CreateRecordRequest_zero.

(** *** UpdateRecordRequest *)

Definition UpdateRecordRequest_zero : UpdateRecordRequest :=
  mkUpdateRecordRequest "" "" "" None.

Definition UpdateRecordRequest_fields : list string :=
  ["type"; "name"; "value"; "ttl"].

Definition UpdateRecordRequest_Marshal (r : UpdateRecordRequest)
  : value :=
  Object ([("type", encString (UpdateRecordRequest_Type r));
           ("name", encString (UpdateRecordRequest_Name r));
           ("value", encString (UpdateRecordRequest_Value r))]
          ++ omitemptyIntPtr "ttl" (UpdateRecordRequest_TTL r))%list.

Definition UpdateRecordRequest_setField (i : nat) (v : value)
           (r : UpdateRecordRequest) : option UpdateRecordRequest :=
  let (ty, name, val, ttl) := r in
  match i with
  | 0 => option_map (fun x => mkUpdateRecordRequest x name val ttl)
                    (decString v ty)
  | 1 => option_map (fun x => mkUpdateRecordRequest ty x val ttl)
                    (decString v name)
  | 2 => option_map (fun x => mkUpdateRecordRequest ty name x ttl)
                    (decString v val)
  | 3 => option_map (fun x => mkUpdateRecordRequest ty name val x)
                    (decIntPtr v ttl)
  | _ => Some r
  end%nat.

Definition UpdateRecordRequest_Unmarshal (v : value)
  : option UpdateRecordRequest :=
  decStruct UpdateRecordRequest_fields UpdateRecordRequest_setField v
            UpdateRecordRequest_zero.

(** *** APIError *)

Definition APIErrorBody_zero : APIErrorBody := mkAPIErrorBody "" 0.

Definition APIErrorBody_fields : list string := ["message"; "code"].

Definition APIErrorBody_Marshal (e : APIErrorBody) : value :=
  Object [("message", encString (APIError_Message e));
          ("code", encInt (APIError_Code e))].

Definition APIErrorBody_setField (i : nat) (v : value)
           (e : APIErrorBody) : option APIErrorBody :=
  let (msg, code) := e in
  match i with
  | 0 => option_map (fun x => mkAPIErrorBody x code) (decString v msg)
  | 1 => option_map (fun x => mkAPIErrorBody msg x) (decInt v code)
  | _ => Some e
  end%nat.

Definition APIError_zero : APIError := mkAPIError APIErrorBody_zero.

Definition APIError_fields : list string := ["error"].

Definition APIError_Marshal (e : APIError) : value :=
  Object [("error", APIErrorBody_Marshal (APIError_Error e))].

Definition APIError_setField (i : nat) (v : value) (e : APIError)
  : option APIError :=
  match i with
  | 0 => option_map mkAPIError
           (decStruct APIErrorBody_fields APIErrorBody_setField v
                      (APIError_Error e))
  | _ => Some e
  end%nat.

Definition APIError_Unmarshal (v : value) : option APIError :=
  decStruct APIError_fields APIError_setField v APIError_zero.

(** *** Zone *)

Definition TxtVerification_zero : TxtVerification :=
  mkTxtVerification "" "".

Definition TxtVerification_fields : list string := ["name"; "token"].

Definition TxtVerification_Marshal (t : TxtVerification) : value :=
  Object [("name", encString (TxtVerification_Name t));
          ("token", encString (TxtVerification_Token t))].

Definition TxtVerification_setField (i : nat) (v : value)
           (t : TxtVerification) : option TxtVerification :=
  let (name, token) := t in
  match i with
  | 0 => option_map (fun x => mkTxtVerification x token)
                    (decString v name)
  | 1 => option_map (fun x => mkTxtVerification name x)
                    (decString v token)
  | _ => Some t
  end%nat.

(** [time.Time] brings its own [MarshalJSON], which can fail, and
    [UnmarshalJSON], which leaves the time as it is on [null]. *)
Context {Time : Type}.
Variable Time_zero : Time.
Variable Time_MarshalJSON : Time -> option value.
Variable Time_UnmarshalJSON : value -> option Time.

Definition decTime (v : value) (cur : Time) : option Time :=
  match v with
  | Null => Some cur
  | _ => Time_UnmarshalJSON v
  end.

Definition Zone_zero : Zone Time :=
  mkZone "" "" 0 "" "" None None Time_zero Time_zero Time_zero
         "" "" "" "" "" false false TxtVerification_zero 0.

Definition Zone_fields : list string :=
  ["id"; "name"; "ttl"; "registrar"; "legacy_dns_host"; "legacy_ns";
   "ns"; "created"; "verified"; "modified"; "project"; "owner";
   "permission"; "zone_type"; "status"; "paused"; "is_secondary_dns";
   "txt_verification"; "records_count"].

(** [json.Marshal] of a zone fails when one of its timestamps does. *)
Definition Zone_Marshal (z : Zone Time) : option value :=
  match Time_MarshalJSON (Zone_Created z),
        Time_MarshalJSON (Zone_Verified z),
        Time_MarshalJSON (Zone_Modified z) with
  | Some created, Some verified, Some modified =>
      Some (Object
        [("id", encString (Zone_ID z));
         ("name", encString (Zone_Name z));
         ("ttl", encInt (Zone_TTL z));
         ("registrar", encString (Zone_Registrar z));
         ("legacy_dns_host", encString (Zone_LegacyDNSHost z));
         ("legacy_ns", encStrings (Zone_LegacyNS z));
         ("ns", encStrings (Zone_NS z));
         ("created", created);
         ("verified", verified);
         ("modified", modified);
         ("project", encString (Zone_Project z));
         ("owner", encString (Zone_Owner z));
         ("permission", encString (Zone_Permission z));
         ("zone_type", encString (Zone_ZoneType z));
         ("status", encString (Zone_Status z));
         ("paused", encBool (Zone_Paused z));
         ("is_secondary_dns", encBool (Zone_IsSecondaryDNS z));
         ("txt_verification",
          TxtVerification_Marshal (Zone_TxtVerification z));
         ("records_count", encInt (Zone_RecordsCount z))])
  | _, _, _ => None
  end.

Definition Zone_setField (i : nat) (v : value) (z : Zone Time)
  : option (Zone Time) :=
  let (id, name, ttl, reg, ldh, lns, ns, cr, ve, mo, pr, ow, pe, zt,
       st, pa, sec, txt, rc) := z in
  match i with
  | 0 => option_map (fun x => mkZone x name ttl reg ldh lns ns cr ve mo
                                     pr ow pe zt st pa sec txt rc)
                    (decString v id)
  | 1 => option_map (fun x => mkZone id x ttl reg ldh lns ns cr ve mo
                                     pr ow pe zt st pa sec txt rc)
                    (decString v name)
  | 2 => option_map (fun x => mkZone id name x reg ldh lns ns cr ve mo
                                     pr ow pe zt st pa sec txt rc)
                    (decInt v ttl)
  | 3 => option_map (fun x => mkZone id name ttl x ldh lns ns cr ve mo
                                     pr ow pe zt st pa sec txt rc)
                    (decString v reg)
  | 4 => option_map (fun x => mkZone id name ttl reg x lns ns cr ve mo
                                     pr ow pe zt st pa sec txt rc)
                    (decString v ldh)
  | 5 => option_map (fun x => mkZone id name ttl reg ldh x ns cr ve mo
                                     pr ow pe zt st pa sec txt rc)
                    (decStrings v lns)
  | 6 => option_map (fun x => mkZone id name ttl reg ldh lns x cr ve mo
                                     pr ow pe zt st pa sec txt rc)
                    (decStrings v ns)
  | 7 => option_map (fun x => mkZone id name ttl reg ldh lns ns x ve mo
                                     pr ow pe zt st pa sec txt rc)
                    (decTime v cr)
  | 8 => option_map (fun x => mkZone id name ttl reg ldh lns ns cr x mo
                                     pr ow pe zt st pa sec txt rc)
                    (decTime v ve)
  | 9 => option_map (fun x => mkZone id name ttl reg ldh lns ns cr ve x
                                     pr ow pe zt st pa sec txt rc)
                    (decTime v mo)
  | 10 => option_map (fun x => mkZone id name ttl reg ldh lns ns cr ve mo
                                      x ow pe zt st pa sec txt rc)
                     (decString v pr)
  | 11 => option_map (fun x => mkZone id name ttl reg ldh lns ns cr ve mo
                                      pr x pe zt st pa sec txt rc)
                     (decString v ow)
  | 12 => option_map (fun x => mkZone id name ttl reg ldh lns ns cr ve mo
                                      pr ow x zt st pa sec txt rc)
                     (decString v pe)
  | 13 => option_map (fun x => mkZone id name ttl reg ldh lns ns cr ve mo
                                      pr ow pe x st pa sec txt rc)
                     (decString v zt)
  | 14 => option_map (fun x => mkZone id name ttl reg ldh lns ns cr ve mo
                                      pr ow pe zt x pa sec txt rc)
                     (decString v st)
  | 15 => option_map (fun x => mkZone id name ttl reg ldh lns ns cr ve mo
                                      pr ow pe zt st x sec txt rc)
                     (decBool v pa)
  | 16 => option_map (fun x => mkZone id name ttl reg ldh lns ns cr ve mo
                                      pr ow pe zt st pa x txt rc)
                     (decBool v sec)
  | 17 => option_map (fun x => mkZone id name ttl reg ldh lns ns cr ve mo
                                      pr ow pe zt st pa sec x rc)
                     (decStruct TxtVerification_fields
                                TxtVerification_setField v txt)
  | 18 => option_map (fun x => mkZone id name ttl reg ldh lns ns cr ve mo
                                      pr ow pe zt st pa sec txt x)
                     (decInt v rc)
  | _ => Some z
  end%nat.

Definition Zone_Unmarshal (v : value) : option (Zone Time) :=
  decStruct Zone_fields Zone_setField v Zone_zero.

End Schema.

(* ------------------------------------------------------------------ *)
(** ** Vocabulary of the properties *)

Section Vocabulary.

Context {Time : Type}.

(** The hostname is the name of the zone. *)
Definition exactMatch (h : string) (z : Zone Time) : Prop :=
  h = Zone_Name z.

(** The hostname ends in a dot and the name of the zone. *)
Definition suffixMatch (h : string) (z : Zone Time) : Prop :=
  exists prefix, h = prefix ++ "." ++ Zone_Name z.

Definition zoneMatches (h : string) (z : Zone Time) : Prop :=
  exactMatch h z \/ suffixMatch h z.

(** The first zone of the list whose name is the hostname. *)
Definition firstExact (h : string) (zones : list (Zone Time))
  : option (Zone Time) :=
  find (fun z => String.eqb h (Zone_Name z)) zones.

(** The record has the wanted name and type. *)
Definition recordMatches (recordName recordType : string)
           (r : DNSRecord) : Prop :=
  DNSRecord_Name r = recordName /\ DNSRecord_Type r = recordType.

(** The request presents the configured user name and password. *)
Definition authenticated (s : DynDNSServer Time) (r : http.Request)
  : Prop :=
  exists user pass,
    http.BasicAuth r = (user, pass, true)
    /\ user = username s /\ pass = password s.

Definition hostnameOf (r : http.Request) : string :=
  http.Get (http.URL_Query r) "hostname".
Definition myipOf (r : http.Request) : string :=
  http.Get (http.URL_Query r) "myip".
Definition myipv6Of (r : http.Request) : string :=
  http.Get (http.URL_Query r) "myipv6".
Definition offlineOf (r : http.Request) : string :=
  http.Get (http.URL_Query r) "offline".

(** The request passes the checks of the handler that come before
    the first call to the provider. *)
Definition validated (r : http.Request) : Prop :=
  hostnameOf r <> ""
  /\ offlineOf r <> "yes"
  /\ (myipOf r = "" \/ isValidIPv4 (myipOf r) = true)
  /\ (myipv6Of r = "" \/ isValidIPv6 (myipv6Of r) = true)
  /\ ~ (myipOf r = "" /\ myipv6Of r = "").

(** One address family of a request: nothing to do for an address
    that was not supplied, [updateDNSRecord] otherwise. *)
Definition lane (s : DynDNSServer Time) (hostname ip recordType : string)
  : M (option string) :=
  if String.eqb ip "" then ret None
  else updateDNSRecord s hostname ip recordType.

(** A step of [updateDNSRecord] fails: the zone listing, the
    resolution of the hostname, the record listing, or the update or
    creation of the record. *)
Inductive laneFails (s : DynDNSServer Time)
          (hostname ip recordType : string) (tr : list Call) : Prop :=
| zonesFail e :
    GetZones (client s) tr = Err e ->
    laneFails s hostname ip recordType tr
| resolutionFails zones :
    GetZones (client s) tr = Ok zones ->
    (forall z, In z zones -> ~ zoneMatches hostname z) ->
    laneFails s hostname ip recordType tr
| recordsFail zones z name e :
    GetZones (client s) tr = Ok zones ->
    findZone hostname zones = Some (z, name) ->
    GetAllRecords (client s) (tr ++ [CallGetZones])%list (Zone_ID z)
      = Err e ->
    laneFails s hostname ip recordType tr
| writeFails zones z name records e :
    GetZones (client s) tr = Ok zones ->
    findZone hostname zones = Some (z, name) ->
    GetAllRecords (client s) (tr ++ [CallGetZones])%list (Zone_ID z)
      = Ok records ->
    (forall r req,
        findRecord name recordType records = Some r ->
        req = mkUpdateRecordRequest recordType name ip (DNSRecord_TTL r) ->
        UpdateRecord (client s)
          (tr ++ [CallGetZones; CallGetAllRecords (Zone_ID z)])%list
          (DNSRecord_ID r) req = Err e) ->
    (forall req,
        findRecord name recordType records = None ->
        req = mkCreateRecordRequest recordType name ip (Some 3600%Z)
                                    (Zone_ID z) ->
        CreateRecord (client s)
          (tr ++ [CallGetZones; CallGetAllRecords (Zone_ID z)])%list
          req = Err e) ->
    laneFails s hostname ip recordType tr.

End Vocabulary.

(* ------------------------------------------------------------------ *)
(** ** Fixtures, after [dyndns_test.go] *)

Module Fixtures.

(** [Zone{ID: id, Name: name}], with [unit] standing for the zero
    [time.Time]. *)
Definition zone (id name : string) : Zone unit :=
  mkZone id name 0 "" "" None None tt tt tt "" "" "" "" "" false false
         (mkTxtVerification "" "") 0.

(** [DNSRecord{ID: id, Type: ty, Name: name, Value: val}]. *)
Definition record (id ty name val : string) : DNSRecord :=
  mkDNSRecord id ty name val None "" "" "".

(** The mock provider of [TestUpdateDNSRecord]: it lists [zones] and
    [records] and answers every update and creation with a record. *)
Definition mockClient (zones : list (Zone unit))
           (records : list DNSRecord) : Client unit :=
  {| GetZones := fun _ => Ok zones;
     GetAllRecords := fun _ _ => Ok records;
     UpdateRecord := fun _ _ req =>
       Ok (record "updated" (UpdateRecordRequest_Type req) "test"
                  (UpdateRecordRequest_Value req));
     CreateRecord := fun _ req =>
       Ok (record "created" (CreateRecordRequest_Type req) "test"
                  (CreateRecordRequest_Value req)) |}.

(** A provider that is down: every call fails. *)
Definition downClient : Client unit :=
  {| GetZones := fun _ => Err "unreachable";
     GetAllRecords := fun _ _ => Err "unreachable";
     UpdateRecord := fun _ _ _ => Err "unreachable";
     CreateRecord := fun _ _ => Err "unreachable" |}.

(** A provider that serves the IPv4 family and then fails: its zone
    listing fails once calls have been made. *)
Definition flakyClient (zones : list (Zone unit))
           (records : list DNSRecord) : Client unit :=
  {| GetZones := fun tr =>
       match tr with [] => Ok zones | _ => Err "unreachable" end;
     GetAllRecords := fun _ _ => Ok records;
     UpdateRecord := fun _ _ req =>
       Ok (record "updated" (UpdateRecordRequest_Type req) "test"
                  (UpdateRecordRequest_Value req));
     CreateRecord := fun _ req =>
       Ok (record "created" (CreateRecordRequest_Type req) "test"
                  (CreateRecordRequest_Value req)) |}.

(** [NewDynDNSServer(client, "admin", "password", "8080")]. *)
Definition server (c : Client unit) : DynDNSServer unit :=
  NewDynDNSServer c "admin" "password" "8080".

(** A request with [SetBasicAuth("admin", "password")]. *)
Definition request (query : list (string * string)) : http.Request :=
  {| http.BasicAuth := ("admin", "password", true);
     http.URL_Query := query |}.

(** A request without credentials. *)
Definition anonymous (query : list (string * string)) : http.Request :=
  {| http.BasicAuth := ("", "", false); http.URL_Query := query |}.

(** Timestamps kept as their RFC 3339 text, which is what the JSON
    document carries for a [time.Time]. *)
Definition timeText_MarshalJSON (t : string) : option json.value :=
  Some (json.Str t).

Definition timeText_UnmarshalJSON (v : json.value) : option string :=
  match v with
  | json.Str t => Some t
  | _ => None
  end.

(** The zone of [TestZoneJSONMarshaling]. *)
Definition exampleZone : Zone string :=
  mkZone "zone123" "example.com" 3600 "Example Registrar" "old.dns.host"
         (Some ["ns1.legacy.com"; "ns2.legacy.com"])
         (Some ["ns1.hetzner.com"; "ns2.hetzner.com"])
         "2023-01-01T00:00:00Z" "2023-01-01T12:00:00Z"
         "2023-01-02T00:00:00Z"
         "project123" "owner123" "owner" "native" "verified" false false
         (mkTxtVerification "hetzner-domain-verification"
                            "verification-token-123") 5.

(** The record of [TestDNSRecordJSONMarshaling]. *)
Definition exampleRecord : DNSRecord :=
  mkDNSRecord "test123" "A" "test" "192.168.1.1" (Some 3600%Z) "zone123"
              "2023-01-01T00:00:00Z" "2023-01-02T00:00:00Z".

End Fixtures.

(* ------------------------------------------------------------------ *)
(** ** Values that Go's types hold and JSON text can carry *)

(** The strings are valid UTF-8. *)
Definition validStrings (l : list string) : bool :=
  forallb utf8.ValidString l.

(** The integers are Go [int]s. *)
Definition validInts (l : list Z) : bool := forallb json.isInt l.

Definition validIntPtr (p : option Z) : bool :=
  match p with
  | None => true
  | Some n => json.isInt n
  end.

Definition validSlice (l : option (list string)) : bool :=
  match l with
  | None => true
  | Some l => validStrings l
  end.

Definition DNSRecord_wf (r : DNSRecord) : bool :=
  validStrings [DNSRecord_ID r; DNSRecord_Type r; DNSRecord_Name r;
                DNSRecord_Value r; DNSRecord_ZoneID r;
                DNSRecord_Created r; DNSRecord_Modified r]
  && validIntPtr (DNSRecord_TTL r).

Definition CreateRecordRequest_wf (r : CreateRecordRequest) : bool :=
  validStrings [CreateRecordRequest_Type r; CreateRecordRequest_Name r;
                CreateRecordRequest_Value r; CreateRecordRequest_ZoneID r]
  && validIntPtr (CreateRecordRequest_TTL r).

Definition UpdateRecordRequest_wf (r : UpdateRecordRequest) : bool :=
  validStrings [UpdateRecordRequest_Type r; UpdateRecordRequest_Name r;
                UpdateRecordRequest_Value r]
  && validIntPtr (UpdateRecordRequest_TTL r).

Definition APIError_wf (e : APIError) : bool :=
  utf8.ValidString (APIError_Message (APIError_Error e))
  && json.isInt (APIError_Code (APIError_Error e)).

Definition Zone_wf {Time : Type} (z : Zone Time) : bool :=
  validStrings [Zone_ID z; Zone_Name z; Zone_Registrar z;
                Zone_LegacyDNSHost z; Zone_Project z; Zone_Owner z;
                Zone_Permission z; Zone_ZoneType z; Zone_Status z;
                TxtVerification_Name (Zone_TxtVerification z);
                TxtVerification_Token (Zone_TxtVerification z)]
  && validSlice (Zone_LegacyNS z) && validSlice (Zone_NS z)
  && validInts [Zone_TTL z; Zone_RecordsCount z].

Section TimeRoundTrip.

Context {Time : Type}.
Variable Time_MarshalJSON : Time -> option json.value.
Variable Time_UnmarshalJSON : json.value -> option Time.

(** The timestamp survives [time.Time]'s own way to JSON and back. *)
Definition timeRoundTrips (t : Time) : Prop :=
  exists j,
    Time_MarshalJSON t = Some j
    /\ forall cur, decTime Time_UnmarshalJSON j cur = Some t.

End TimeRoundTrip.

(* ------------------------------------------------------------------ *)
(** ** Tactics of the round-trip proofs *)

Ltac split_andb :=
  repeat match goal with
         | H : (_ && _) = true |- _ => apply andb_prop in H; destruct H
         end.

(** Cases on a string tagged [omitempty]: empty and left out, or
    written. *)
Ltac omitted s :=
  let E := fresh "E" in
  destruct (String.eqb s "") eqn:E;
  [apply String.eqb_eq in E; subst s|].

(** The field that a key written in the source names. *)
Ltac eval_fieldIndex :=
  repeat match goal with
         | |- context [json.fieldIndex ?names ?k] =>
             let i := eval vm_compute in (json.fieldIndex names k) in
             change (json.fieldIndex names k) with i
         end.

Ltac use_isInt :=
  repeat match goal with
         | H : json.isInt _ = true |- _ => rewrite H; clear H
         end.


(* ------------------------------------------------------------------ *)
(** ** Further vocabulary *)

(** A call that changes the provider's data. *)
Definition isWrite (c : Call) : bool :=
  match c with
  | CallUpdateRecord _ _ _ | CallCreateRecord _ => true
  | _ => false
  end.

(** The offline flag answers the request. *)
Definition shortCircuited (r : http.Request) : Prop :=
  hostnameOf r <> "" /\ offlineOf r = "yes".

(** The record type, name and value that a write carries. *)
Definition writeOf (c : Call) : option (string * string * string) :=
  match c with
  | CallUpdateRecord _ _ req =>
      Some (UpdateRecordRequest_Type req, UpdateRecordRequest_Name req,
            UpdateRecordRequest_Value req)
  | CallCreateRecord req =>
      Some (CreateRecordRequest_Type req, CreateRecordRequest_Name req,
            CreateRecordRequest_Value req)
  | _ => None
  end.

(** Every byte of the string satisfies [p]. *)
Fixpoint allChars (p : ascii -> bool) (s : string) : bool :=
  match s with
  | EmptyString => true
  | String c rest => p c && allChars p rest
  end.

Definition digitOrDot (c : ascii) : bool :=
  net.isDigit c || Ascii.eqb c ".".

(* ------------------------------------------------------------------ *)
(** ** The provider client ([type Client struct] and its methods)

    The client builds one HTTP request per method, hands it to the
    network and reads the answer.  The network itself ([c.HTTPClient.Do])
    and the parts of Go's library that read text ([http.NewRequest]'s
    check of the method and the URL, the parser of [json.Unmarshal]
    and the wording of its errors) are parameters. *)

From Stdlib Require Import DecimalString.

(** [%d] of [fmt]: the decimal writing of an [int]. *)
Definition Itoa (n : Z) : string := NilZero.string_of_int (Z.to_int n).

(** The body handed to [http.NewRequest]: none, or the JSON document
    of [json.Marshal(body)]. *)
Inductive RequestBody : Type :=
| NoBody
| JSONBody (doc : json.value).

(** The [*http.Request] that the client sends. *)
Record HTTPRequest : Type := mkHTTPRequest {
  Req_Method : string;
  Req_URL    : string;
  Req_Header : list (string * string);
  Req_Body   : RequestBody
}.

(** The [*http.Response] that comes back: its status code and what
    [io.ReadAll(resp.Body)] gives. *)
Record HTTPResponse : Type := mkHTTPResponse {
  StatusCode : Z;
  Resp_Body  : result string
}.

(** [const BaseURL]. *)
Definition BaseURL : string := "https://dns.hetzner.com/api/v1".

(** [type Client struct]; the name [Client] is held by the interface
    of its methods that the bridge sees.  The timeout of its
    [HTTPClient] is in seconds. *)
Record APIClient : Type := mkAPIClient {
  APIKey             : string;
  HTTPClient_Timeout : Z;
  Client_BaseURL     : string
}.

(** [NewClient]. *)
Definition NewClient (apiKey : string) : APIClient :=
  {| APIKey := apiKey; HTTPClient_Timeout := 30;
     Client_BaseURL := BaseURL |}.

(** [type RecordsResponse struct]; a slice of records is a list, the
    nil slice the empty list. *)
Record RecordsResponse : Type := mkRecordsResponse {
  RecordsResponse_Records : list DNSRecord
}.

(** [type RecordResponse struct]. *)
Record RecordResponse : Type := mkRecordResponse {
  RecordResponse_Record : DNSRecord
}.

(** The anonymous struct of [ZonesResponse.Meta.Pagination]. *)
Record Pagination : Type := mkPagination {
  Pagination_Page         : Z;
  Pagination_PerPage      : Z;
  Pagination_PreviousPage : Z;
  Pagination_NextPage     : Z;
  Pagination_LastPage     : Z;
  Pagination_TotalEntries : Z
}.

(** The anonymous struct of [ZonesResponse.Meta]. *)
Record Meta : Type := mkMeta {
  Meta_Pagination : Pagination
}.

(** [type ZonesResponse struct]. *)
Record ZonesResponse (Time : Type) : Type := mkZonesResponse {
  ZonesResponse_Zones : list (Zone Time);
  ZonesResponse_Meta  : Meta
}.

Arguments mkZonesResponse {Time}.
Arguments ZonesResponse_Zones {Time}.
Arguments ZonesResponse_Meta {Time}.

Section ResponseSchema.

Import json.

(** Into a slice of structs: [null] makes the slice nil, an array
    gives one element per member, each read into a zero struct. *)
Fixpoint decStructs {T : Type} (dec : value -> T -> option T) (zero : T)
         (l : list value) : option (list T) :=
  match l with
  | [] => Some []
  | v :: rest =>
      match dec v zero, decStructs dec zero rest with
      | Some t, Some ts => Some (t :: ts)
      | _, _ => None
      end
  end.

Definition decSlice {T : Type} (dec : value -> T -> option T) (zero : T)
           (v : value) (cur : list T) : option (list T) :=
  match v with
  | Null => Some []
  | Array l => decStructs dec zero l
  | _ => None
  end.

Definition DNSRecord_dec : value -> DNSRecord -> option DNSRecord :=
  decStruct DNSRecord_fields DNSRecord_setField.

Definition RecordsResponse_zero : RecordsResponse :=
  mkRecordsResponse [].

Definition RecordsResponse_fields : list string := ["records"].

Definition RecordsResponse_setField (i : nat) (v : value)
           (r : RecordsResponse) : option RecordsResponse :=
  match i with
  | 0 => option_map mkRecordsResponse
           (decSlice DNSRecord_dec DNSRecord_zero v
                     (RecordsResponse_Records r))
  | _ => Some r
  end%nat.

Definition RecordsResponse_dec
  : value -> RecordsResponse -> option RecordsResponse :=
  decStruct RecordsResponse_fields RecordsResponse_setField.

Definition RecordResponse_zero : RecordResponse :=
  mkRecordResponse DNSRecord_zero.

Definition RecordResponse_fields : list string := ["record"].

Definition RecordResponse_setField (i : nat) (v : value)
           (r : RecordResponse) : option RecordResponse :=
  match i with
  | 0 => option_map mkRecordResponse
           (DNSRecord_dec v (RecordResponse_Record r))
  | _ => Some r
  end%nat.

Definition RecordResponse_dec
  : value -> RecordResponse -> option RecordResponse :=
  decStruct RecordResponse_fields RecordResponse_setField.

Definition APIError_dec : value -> APIError -> option APIError :=
  decStruct APIError_fields APIError_setField.

Definition Pagination_zero : Pagination := mkPagination 0 0 0 0 0 0.

Definition Pagination_fields : list string :=
  ["page"; "per_page"; "previous_page"; "next_page"; "last_page";
   "total_entries"].

Definition Pagination_setField (i : nat) (v : value) (p : Pagination)
  : option Pagination :=
  let (pg, pp, prev, next, last, total) := p in
  match i with
  | 0 => option_map (fun x => mkPagination x pp prev next last total)
                    (decInt v pg)
  | 1 => option_map (fun x => mkPagination pg x prev next last total)
                    (decInt v pp)
  | 2 => option_map (fun x => mkPagination pg pp x next last total)
                    (decInt v prev)
  | 3 => option_map (fun x => mkPagination pg pp prev x last total)
                    (decInt v next)
  | 4 => option_map (fun x => mkPagination pg pp prev next x total)
                    (decInt v last)
  | 5 => option_map (fun x => mkPagination pg pp prev next last x)
                    (decInt v total)
  | _ => Some p
  end%nat.

Definition Meta_zero : Meta := mkMeta Pagination_zero.

Definition Meta_fields : list string := ["pagination"].

Definition Meta_setField (i : nat) (v : value) (m : Meta) : option Meta :=
  match i with
  | 0 => option_map mkMeta
           (decStruct Pagination_fields Pagination_setField v
                      (Meta_Pagination m))
  | _ => Some m
  end%nat.

Context {Time : Type}.
Variable Time_zero : Time.
Variable Time_UnmarshalJSON : value -> option Time.

Definition Zone_dec : value -> Zone Time -> option (Zone Time) :=
  decStruct Zone_fields (Zone_setField Time_UnmarshalJSON).

Definition ZonesResponse_zero : ZonesResponse Time :=
  mkZonesResponse [] Meta_zero.

Definition ZonesResponse_fields : list string := ["zones"; "meta"].

Definition ZonesResponse_setField (i : nat) (v : value)
           (r : ZonesResponse Time) : option (ZonesResponse Time) :=
  let (zones, meta) := r in
  match i with
  | 0 => option_map (fun x => mkZonesResponse x meta)
           (decSlice Zone_dec (Zone_zero Time_zero) v zones)
  | 1 => option_map (fun x => mkZonesResponse zones x)
           (decStruct Meta_fields Meta_setField v meta)
  | _ => Some r
  end%nat.

Definition ZonesResponse_dec
  : value -> ZonesResponse Time -> option (ZonesResponse Time) :=
  decStruct ZonesResponse_fields ZonesResponse_setField.

End ResponseSchema.

Section ClientMethods.

Context {Time : Type}.
Variable Time_zero : Time.
Variable Time_UnmarshalJSON : json.value -> option Time.

(** The parser of [json.Unmarshal]: the document that a text is, or
    [None] for a text that is no JSON. *)
Variable parseJSON : string -> option json.value.

(** The messages of the errors of [json.Unmarshal], for a text that is
    no JSON and for a document that does not fit the Go value. *)
Variable syntaxError : string -> string.
Variable typeError : string -> string.

(** The error of [http.NewRequest(method, url, body)], [None] when the
    method and the URL are well formed. *)
Variable newRequestError : string -> string -> option string.

(** The network: [c.HTTPClient.Do(req)]. *)
Variable Do : HTTPRequest -> result HTTPResponse.

(** [json.Unmarshal(body, &x)], where [x] holds [cur]. *)
Definition Unmarshal {T : Type} (dec : json.value -> T -> option T)
           (body : string) (cur : T) : result T :=
  match parseJSON body with
  | None => Err (syntaxError body)
  | Some v =>
      match dec v cur with
      | Some x => Ok x
      | None => Err (typeError body)
      end
  end.

(** [func (c *Client) makeRequest(method, endpoint string, body
    interface{})]: the answer of the network or an error, and the
    requests that went out (one or none).  [body] is [None] for
    [nil], otherwise what [json.Marshal(body)] returns.  The names of
    the two headers are those the source passes to [Header.Set]; HTTP
    does not tell upper from lower case in them. *)
Definition makeRequest (c : APIClient) (method endpoint : string)
           (body : option (result json.value))
  : result HTTPResponse * list HTTPRequest :=
  match body with
  | Some (Err err) =>
      (Err ("failed to marshal request body: " ++ err), [])
  | _ =>
      let reqBody :=
        match body with
        | Some (Ok jsonBody) => JSONBody jsonBody
        | _ => NoBody
        end in
      match newRequestError method (Client_BaseURL c ++ endpoint) with
      | Some err => (Err ("failed to create request: " ++ err), [])
      | None =>
          let req :=
            {| Req_Method := method;
               Req_URL := Client_BaseURL c ++ endpoint;
               Req_Header := [("Auth-API-Token", APIKey c);
                              ("Content-Type", "application/json")];
               Req_Body := reqBody |} in
          match Do req with
          | Err err => (Err ("failed to make request: " ++ err), [req])
          | Ok resp => (Ok resp, [req])
          end
      end
  end.

(** [func (c *Client) handleResponse(resp *http.Response, result
    interface{}) error].  [result] is [None] for [nil], otherwise the
    way JSON is read into the variable it points to, which holds
    [cur]; the variable's content afterwards is returned. *)
Definition handleResponse {T : Type} (resp : HTTPResponse)
           (result_ : option (json.value -> T -> option T)) (cur : T)
  : result T :=
  match Resp_Body resp with
  | Err err => Err ("failed to read response body: " ++ err)
  | Ok body =>
      if (StatusCode resp <? 200)%Z || (300 <=? StatusCode resp)%Z then
        match Unmarshal APIError_dec body APIError_zero with
        | Err _ =>
            Err ("API request failed with status "
                   ++ Itoa (StatusCode resp) ++ ": " ++ body)
        | Ok apiError =>
            Err ("API error: "
                   ++ APIError_Message (APIError_Error apiError))
        end
      else
        match result_ with
        | Some dec =>
            match Unmarshal dec body cur with
            | Err err => Err ("failed to unmarshal response: " ++ err)
            | Ok x => Ok x
            end
        | None => Ok cur
        end
  end.

(** [func (c *Client) GetAllRecords(zoneID string)]: the records or
    the error, and the requests that went out. *)
Definition Client_GetAllRecords (c : APIClient) (zoneID : string)
  : result (list DNSRecord) * list HTTPRequest :=
  let endpoint := "/records?zone_id=" ++ zoneID in
  let (resp, sent) := makeRequest c "GET" endpoint None in
  match resp with
  | Err err => (Err err, sent)
  | Ok resp =>
      match handleResponse resp (Some RecordsResponse_dec)
                           RecordsResponse_zero with
      | Err err => (Err err, sent)
      | Ok recordsResp => (Ok (RecordsResponse_Records recordsResp), sent)
      end
  end.


(** [func (c *Client) CreateRecord(req CreateRecordRequest)]. *)
Definition Client_CreateRecord (c : APIClient) (req : CreateRecordRequest)
  : result DNSRecord * list HTTPRequest :=
  let (resp, sent) :=
    makeRequest c "POST" "/records"
                (Some (Ok (CreateRecordRequest_Marshal req))) in
  match resp with
  | Err err => (Err err, sent)
  | Ok resp =>
      match handleResponse resp (Some RecordResponse_dec)
                           RecordResponse_zero with
      | Err err => (Err err, sent)
      | Ok recordResp => (Ok (RecordResponse_Record recordResp), sent)
      end
  end.

(** [func (c *Client) UpdateRecord(recordID string, req
    UpdateRecordRequest)]. *)
Definition Client_UpdateRecord (c : APIClient) (recordID : string)
           (req : UpdateRecordRequest)
  : result DNSRecord * list HTTPRequest :=
  let endpoint := "/records/" ++ recordID in
  let (resp, sent) :=
    makeRequest c "PUT" endpoint
                (Some (Ok (UpdateRecordRequest_Marshal req))) in
  match resp with
  | Err err => (Err err, sent)
  | Ok resp =>
      match handleResponse resp (Some RecordResponse_dec)
                           RecordResponse_zero with
      | Err err => (Err err, sent)
      | Ok recordResp => (Ok (RecordResponse_Record recordResp), sent)
      end
  end.

(** [func (c *Client) DeleteRecord(recordID string) error]: [Ok tt]
    is [nil]. *)
Definition Client_DeleteRecord (c : APIClient) (recordID : string)
  : result unit * list HTTPRequest :=
  let endpoint := "/records/" ++ recordID in
  let (resp, sent) := makeRequest c "DELETE" endpoint None in
  match resp with
  | Err err => (Err err, sent)
  | Ok resp =>
      (handleResponse resp (@None (json.value -> unit -> option unit)) tt,
       sent)
  end.

(** [func (c *Client) GetZones()]. *)
Definition Client_GetZones (c : APIClient)
  : result (list (Zone Time)) * list HTTPRequest :=
  let (resp, sent) := makeRequest c "GET" "/zones" None in
  match resp with
  | Err err => (Err err, sent)
  | Ok resp =>
      match handleResponse
              resp (Some (ZonesResponse_dec Time_zero Time_UnmarshalJSON))
              ZonesResponse_zero with
      | Err err => (Err err, sent)
      | Ok zonesResp => (Ok (ZonesResponse_Zones zonesResp), sent)
      end
  end.

End ClientMethods.

(** The request that a method of the client sends for a method of
    HTTP, an endpoint and a body. *)
Definition requestFor (c : APIClient) (method endpoint : string)
           (body : RequestBody) : HTTPRequest :=
  {| Req_Method := method;
     Req_URL := Client_BaseURL c ++ endpoint;
     Req_Header := [("Auth-API-Token", APIKey c);
                    ("Content-Type", "application/json")];
     Req_Body := body |}.

(** The status code is one of success for [handleResponse]. *)
Definition is2xx (code : Z) : Prop := (200 <= code < 300)%Z.

(** No member of the document names a field of the struct. *)
Definition noKnownKey (names : list string)
           (members : list (string * json.value)) : Prop :=
  forall k v, In (k, v) members -> json.fieldIndex names k = None.

Section ClientFixtures.

(** A parser for the few texts of the examples. *)
Definition parseExamples (body : string) : option json.value :=
  if String.eqb body "{}" then Some (json.Object [])
  else if String.eqb body "null" then Some json.Null
  else None.

(** A network that answers every request with the same response. *)
Definition constantNet (resp : HTTPResponse)
  : HTTPRequest -> result HTTPResponse :=
  fun _ => Ok resp.

End ClientFixtures.

(* ------------------------------------------------------------------ *)
(** ** The bridge over the client, and [main] *)

Section Wiring.

Context {Time : Type}.
Variable Time_zero : Time.
Variable Time_UnmarshalJSON : json.value -> option Time.
Variable parseJSON : string -> option json.value.
Variable syntaxError : string -> string.
Variable typeError : string -> string.
Variable newRequestError : string -> string -> option string.

(** The network as the bridge meets it: its answer to a request may
    depend on the calls made so far. *)
Variable net : list Call -> HTTPRequest -> result HTTPResponse.

(** The [*Client] that [main] hands to [NewDynDNSServer], as the
    interface of the bridge: each method is the client's method over
    the network. *)
Definition clientOver (c : APIClient) : Client Time :=
  {| GetZones := fun tr =>
       fst (Client_GetZones Time_zero Time_UnmarshalJSON parseJSON
                            syntaxError typeError newRequestError
                            (net tr) c);
     GetAllRecords := fun tr zoneID =>
       fst (Client_GetAllRecords parseJSON syntaxError typeError
                                 newRequestError (net tr) c zoneID);
     UpdateRecord := fun tr recordID req =>
       fst (Client_UpdateRecord parseJSON syntaxError typeError
                                newRequestError (net tr) c recordID req);
     CreateRecord := fun tr req =>
       fst (Client_CreateRecord parseJSON syntaxError typeError
                                newRequestError (net tr) c req) |}.

End Wiring.

(** How [main] ends: [log.Fatal] with a message, or the server it
    starts, given by the arguments of [NewClient] and
    [NewDynDNSServer]. *)
Inductive Outcome : Type :=
| Fatal (msg : string)
| Serve (c : APIClient) (username password port : string).

(** [func main()], up to [server.Start()]; [Getenv] is [os.Getenv]. *)
Definition main (Getenv : string -> string) : Outcome :=
  let apiKey := Getenv "HETZNER_DNS_API_KEY" in
  if String.eqb apiKey "" then
    Fatal "HETZNER_DNS_API_KEY environment variable is required"
  else
  let username := Getenv "DYNDNS_USERNAME" in
  let username := if String.eqb username "" then "admin" else username in
  let password := Getenv "DYNDNS_PASSWORD" in
  if String.eqb password "" then
    Fatal "DYNDNS_PASSWORD environment variable is required"
  else
  let port := Getenv "DYNDNS_PORT" in
  let port := if String.eqb port "" then "8080" else port in
  let client := NewClient apiKey in
  Serve client username password port.

(** An environment that sets the two required variables only. *)
Definition minimalEnv (name : string) : string :=
  if String.eqb name "HETZNER_DNS_API_KEY" then "token"
  else if String.eqb name "DYNDNS_PASSWORD" then "secret"
  else "".

Section Answers.

Variable parseJSON : string -> option json.value.

(** The network answers the request with a 2xx status and a body
    that reads into [cur] as [x]. *)
Definition answers {T : Type} (Do : HTTPRequest -> result HTTPResponse)
           (req : HTTPRequest) (dec : json.value -> T -> option T)
           (cur x : T) : Prop :=
  exists resp body doc,
    Do req = Ok resp
    /\ is2xx (StatusCode resp)
    /\ Resp_Body resp = Ok body
    /\ parseJSON body = Some doc
    /\ dec doc cur = Some x.

End Answers.

(** The texts of the examples of an update, end to end, with the
    documents they are. *)
Definition parseUpdateExample (body : string) : option json.value :=
  if String.eqb body "zones" then
    Some (json.Object
            [("zones",
              json.Array [json.Object [("id", json.Str "zone123");
                                       ("name", json.Str "example.com")]])])
  else if String.eqb body "records" then
    Some (json.Object
            [("records",
              json.Array
                [DNSRecord_Marshal
                   (Fixtures.record "record123" "A" "test" "1.2.3.4")])])
  else if String.eqb body "record" then
    Some (json.Object
            [("record",
              DNSRecord_Marshal
                (Fixtures.record "record123" "A" "test" "1.2.3.5"))])
  else None.

(** The mock provider of [TestHandleUpdateWithMockClient]. *)
Definition mockNet (tr : list Call) (req : HTTPRequest)
  : result HTTPResponse :=
  if String.eqb (Req_URL req) (BaseURL ++ "/zones") then
    Ok {| StatusCode := 200; Resp_Body := Ok "zones" |}
  else if String.eqb (Req_URL req) (BaseURL ++ "/records?zone_id=zone123")
  then Ok {| StatusCode := 200; Resp_Body := Ok "records" |}
  else if String.eqb (Req_URL req) (BaseURL ++ "/records/record123")
          && String.eqb (Req_Method req) "PUT"
  then Ok {| StatusCode := 200; Resp_Body := Ok "record" |}
  else Ok {| StatusCode := 404; Resp_Body := Ok "" |}.



(* ================================================================== *)
(** * Properties *)

(** ** Strings *)

Lemma substring_0_all (s : string) : substring 0 (String.length s) s = s.
Proof. induction s as [|c s IH]; simpl; [reflexivity | now rewrite IH]. Qed.

Lemma substring_split (s : string) (n : nat) :
  (n <= String.length s)%nat ->
  substring 0 n s ++ substring n (String.length s - n) s = s.
Proof.
  revert n; induction s as [|c s IH]; intros [|n] Hn; simpl in *.
  - reflexivity.
  - lia.
  - now rewrite substring_0_all.
  - f_equal. apply IH. lia.
Qed.

Lemma length_append (p s : string) :
  String.length (p ++ s) = (String.length p + String.length s)%nat.
Proof. induction p as [|c p IH]; simpl; [reflexivity | now rewrite IH]. Qed.

Lemma substring_append_r (p s : string) :
  substring (String.length p) (String.length s) (p ++ s) = s.
Proof.
  induction p as [|c p IH]; simpl; [apply substring_0_all | exact IH].
Qed.

Lemma substring_append_l (p s : string) :
  substring 0 (String.length p) (p ++ s) = p.
Proof.
  induction p as [|c p IH]; simpl.
  - destruct s; reflexivity.
  - now rewrite IH.
Qed.

Lemma HasSuffix_append (p suffix : string) :
  strings.HasSuffix (p ++ suffix) suffix = true.
Proof.
  unfold strings.HasSuffix. rewrite length_append.
  apply andb_true_intro; split.
  - apply Nat.leb_le. lia.
  - replace (String.length p + String.length suffix - String.length suffix)%nat
      with (String.length p) by lia.
    rewrite substring_append_r. apply String.eqb_refl.
Qed.

Lemma TrimSuffix_append (p suffix : string) :
  strings.TrimSuffix (p ++ suffix) suffix = p.
Proof.
  unfold strings.TrimSuffix. rewrite HasSuffix_append, length_append.
  replace (String.length p + String.length suffix - String.length suffix)%nat
    with (String.length p) by lia.
  apply substring_append_l.
Qed.

Lemma HasSuffix_TrimSuffix (s suffix : string) :
  strings.HasSuffix s suffix = true ->
  strings.TrimSuffix s suffix ++ suffix = s.
Proof.
  intros H. unfold strings.TrimSuffix. rewrite H.
  unfold strings.HasSuffix in H. apply andb_prop in H as [Hlen Heq].
  apply Nat.leb_le in Hlen. apply String.eqb_eq in Heq.
  pose proof (substring_split s (String.length s - String.length suffix))
    as Hs.
  replace (String.length s - (String.length s - String.length suffix))%nat
    with (String.length suffix) in Hs by lia.
  rewrite Heq in Hs. apply Hs. lia.
Qed.

Lemma HasSuffix_iff (s suffix : string) :
  strings.HasSuffix s suffix = true <-> exists p, s = p ++ suffix.
Proof.
  split.
  - intros H. exists (strings.TrimSuffix s suffix).
    symmetry. now apply HasSuffix_TrimSuffix.
  - intros [p ->]. apply HasSuffix_append.
Qed.

Lemma append_inj_l (p q suffix : string) :
  p ++ suffix = q ++ suffix -> p = q.
Proof.
  intros H. rewrite <- (TrimSuffix_append p suffix), H.
  apply TrimSuffix_append.
Qed.

(* ------------------------------------------------------------------ *)
(** ** Zone resolution *)

Section Resolution.

Context {Time : Type}.
Implicit Types (h : string) (z : Zone Time) (zones : list (Zone Time)).

Lemma exact_not_suffix h z : exactMatch h z -> ~ suffixMatch h z.
Proof.
  unfold exactMatch. intros -> [p Hp].
  apply (f_equal String.length) in Hp.
  rewrite !length_append in Hp. simpl in Hp. lia.
Qed.

Lemma suffixMatch_iff h z :
  suffixMatch h z <->
  strings.HasSuffix h ("." ++ Zone_Name z) = true.
Proof. unfold suffixMatch. symmetry. apply HasSuffix_iff. Qed.

(** One turn of the loop on a zone that does not match. *)
Lemma findZone_skip h z zones :
  ~ zoneMatches h z -> findZone h (z :: zones) = findZone h zones.
Proof.
  intros Hn. cbn [findZone].
  destruct (String.eqb h (Zone_Name z)) eqn:E.
  - apply String.eqb_eq in E. exfalso. apply Hn. now left.
  - destruct (strings.HasSuffix h ("." ++ Zone_Name z)) eqn:E'.
    + exfalso. apply Hn. right. now apply suffixMatch_iff.
    + reflexivity.
Qed.

Lemma findZone_app_skip h pre zones :
  (forall z', In z' pre -> ~ zoneMatches h z') ->
  findZone h (pre ++ zones) = findZone h zones.
Proof.
  induction pre as [|z' pre IH]; intros Hpre; [reflexivity|].
  rewrite <- app_comm_cons, findZone_skip.
  - apply IH. intros; apply Hpre; now right.
  - apply Hpre; now left.
Qed.

Lemma findZone_exact h z zones :
  exactMatch h z -> findZone h (z :: zones) = Some (z, "@").
Proof.
  unfold exactMatch. intros ->. cbn [findZone]. now rewrite String.eqb_refl.
Qed.

Lemma findZone_suffix h z zones prefix :
  h = prefix ++ "." ++ Zone_Name z ->
  findZone h (z :: zones) = Some (z, prefix).
Proof.
  intros Hh. cbn [findZone].
  destruct (String.eqb h (Zone_Name z)) eqn:E.
  - apply String.eqb_eq in E. exfalso.
    apply (exact_not_suffix h z E). now exists prefix.
  - subst h. now rewrite HasSuffix_append, TrimSuffix_append.
Qed.

Lemma findZone_None h zones :
  findZone h zones = None <->
  (forall z, In z zones -> ~ zoneMatches h z).
Proof.
  induction zones as [|z zones IH]; cbn [findZone In].
  - split; [intros _ ? [] | reflexivity].
  - destruct (String.eqb h (Zone_Name z)) eqn:E.
    + apply String.eqb_eq in E. split; [discriminate|].
      intros H. exfalso. apply (H z); [now left | now left].
    + destruct (strings.HasSuffix h ("." ++ Zone_Name z)) eqn:E'.
      * split; [discriminate|]. intros H. exfalso.
        apply (H z); [now left | right; now apply suffixMatch_iff].
      * rewrite IH. split.
        -- intros H z' [<- | Hin]; [|now apply H].
           intros [Hx | Hs].
           ++ unfold exactMatch in Hx. apply String.eqb_neq in E.
              contradiction.
           ++ apply suffixMatch_iff in Hs. congruence.
        -- intros H z' Hin. apply H. now right.
Qed.

(** What a resolution says about the list it came from. *)
Lemma findZone_Some h zones z name :
  findZone h zones = Some (z, name) ->
  exists pre post,
    zones = (pre ++ z :: post)%list
    /\ (forall z', In z' pre -> ~ zoneMatches h z')
    /\ ((exactMatch h z /\ name = "@")
        \/ (~ exactMatch h z /\ h = name ++ "." ++ Zone_Name z)).
Proof.
  induction zones as [|z0 zones IH]; cbn [findZone]; [discriminate|].
  destruct (String.eqb h (Zone_Name z0)) eqn:E.
  - intros [= <- <-]. apply String.eqb_eq in E.
    exists [], zones. repeat split; [intros ? [] | now left].
  - destruct (strings.HasSuffix h ("." ++ Zone_Name z0)) eqn:E'.
    + intros [= <- <-]. apply String.eqb_neq in E.
      exists [], zones. repeat split; [intros ? [] |].
      right. split; [exact E|].
      symmetry. now apply HasSuffix_TrimSuffix.
    + intros H. destruct (IH H) as (pre & post & -> & Hpre & Hz).
      exists (z0 :: pre), post. repeat split; [|exact Hz].
      intros z' [<- | Hin]; [|now apply Hpre].
      intros [Hx | Hs].
      * apply String.eqb_neq in E. contradiction.
      * apply suffixMatch_iff in Hs. congruence.
Qed.

End Resolution.

(* ------------------------------------------------------------------ *)
(** ** Runs of [updateDNSRecord] *)

Section Runs.

Context {Time : Type}.
Implicit Types (s : DynDNSServer Time) (h ip t : string)
         (tr : list Call).

(** [updateDNSRecord], step by step, with the calls it leaves
    behind. *)
Lemma updateDNSRecord_run s h ip t tr :
  updateDNSRecord s h ip t tr =
  let tr1 := (tr ++ [CallGetZones])%list in
  match GetZones (client s) tr with
  | Err e => (Some ("failed to get zones: " ++ e), tr1)
  | Ok zones =>
    match findZone h zones with
    | None => (Some ("no zone found for hostname: " ++ h), tr1)
    | Some (z, name) =>
      let tr2 :=
        (tr ++ [CallGetZones; CallGetAllRecords (Zone_ID z)])%list in
      match GetAllRecords (client s) tr1 (Zone_ID z) with
      | Err e => (Some ("failed to get records: " ++ e), tr2)
      | Ok records =>
        match findRecord name t records with
        | Some r =>
            let req := mkUpdateRecordRequest t name ip (DNSRecord_TTL r) in
            (match UpdateRecord (client s) tr2 (DNSRecord_ID r) req with
             | Err e => Some ("failed to update record: " ++ e)
             | Ok _ => None
             end,
             (tr2 ++ [CallUpdateRecord (DNSRecord_ID r) (Zone_ID z) req])
               %list)
        | None =>
            let req := mkCreateRecordRequest t name ip (Some 3600%Z)
                                             (Zone_ID z) in
            (match CreateRecord (client s) tr2 req with
             | Err e => Some ("failed to create record: " ++ e)
             | Ok _ => None
             end,
             (tr2 ++ [CallCreateRecord req])%list)
        end
      end
    end
  end.
Proof.
  unfold updateDNSRecord, bind, call, ret.
  destruct (GetZones (client s) tr) as [zones|e]; [|reflexivity].
  destruct (findZone h zones) as [[z name]|]; [|reflexivity].
  cbv zeta.
  replace ((tr ++ [CallGetZones]) ++ [CallGetAllRecords (Zone_ID z)])%list
    with (tr ++ [CallGetZones; CallGetAllRecords (Zone_ID z)])%list
    by now rewrite <- app_assoc.
  destruct (GetAllRecords _ _ _) as [records|e]; [|reflexivity].
  destruct (findRecord name t records) as [r|].
  - destruct (UpdateRecord _ _ _ _); reflexivity.
  - destruct (CreateRecord _ _ _); reflexivity.
Qed.

(** The calls of one run extend the calls made before it. *)
Lemma updateDNSRecord_extends s h ip t tr :
  exists calls,
    snd (updateDNSRecord s h ip t tr) = (tr ++ CallGetZones :: calls)%list.
Proof.
  rewrite updateDNSRecord_run. cbv zeta.
  destruct (GetZones (client s) tr) as [zones|e];
    [|exists []; reflexivity].
  destruct (findZone h zones) as [[z name]|]; [|exists []; reflexivity].
  destruct (GetAllRecords _ _ _) as [records|e];
    [|eexists; reflexivity].
  destruct (findRecord name t records) as [r|]; cbn [snd];
    rewrite <- app_assoc; eexists; reflexivity.
Qed.

(** [updateDNSRecord] returns an error exactly when one of its steps
    fails. *)
Lemma laneFails_iff s h ip t tr :
  laneFails s h ip t tr <-> fst (updateDNSRecord s h ip t tr) <> None.
Proof.
  rewrite updateDNSRecord_run. cbv zeta. split.
  - intros [e Hz | zones Hz Hno | zones z name e Hz Hf He
           | zones z name records e Hz Hf Hr Hu Hc]; rewrite Hz.
    + discriminate.
    + apply findZone_None in Hno. rewrite Hno. discriminate.
    + rewrite Hf, He. discriminate.
    + rewrite Hf, Hr.
      destruct (findRecord name t records) as [r|] eqn:Er; cbn [fst].
      * rewrite (Hu r _ eq_refl eq_refl). discriminate.
      * rewrite (Hc _ eq_refl eq_refl). discriminate.
  - destruct (GetZones (client s) tr) as [zones|e] eqn:Hz;
      [|intros _; now apply (zonesFail _ _ _ _ _ e)].
    destruct (findZone h zones) as [[z name]|] eqn:Hf;
      [|intros _; apply (resolutionFails _ _ _ _ _ zones Hz);
        now apply findZone_None].
    destruct (GetAllRecords _ _ _) as [records|e] eqn:Hr;
      [|intros _; now apply (recordsFail _ _ _ _ _ zones z name e)].
    destruct (findRecord name t records) as [r|] eqn:Er; cbn [fst].
    + destruct (UpdateRecord _ _ _ _) as [?|e] eqn:Hu; [congruence|].
      intros _. apply (writeFails _ _ _ _ _ zones z name records e Hz Hf Hr).
      * intros r' req Hr' ->. rewrite Er in Hr'. now injection Hr' as <-.
      * intros req Hnone. congruence.
    + destruct (CreateRecord _ _ _) as [?|e] eqn:Hc; [congruence|].
      intros _. apply (writeFails _ _ _ _ _ zones z name records e Hz Hf Hr).
      * intros r' req Hr'. congruence.
      * now intros req _ ->.
Qed.

End Runs.

(* ------------------------------------------------------------------ *)
(** ** C1: zone resolution *)

Section ZoneResolution.

Context {Time : Type}.

(** C1, as amended.  Resolution scans the zones in the order the
    provider returned them and stops at the first zone that the
    hostname matches either way: if the hostname is the name of that
    zone the result is the zone with the record name ["@"], and if
    the hostname ends in a dot and the name of that zone the result
    is the zone with the prefix, where prefix + "." + name is the
    hostname.  Every result of the resolution is of this kind.  If no
    zone matches either way, [updateDNSRecord] returns the error
    "no zone found for hostname" and the zone listing is the only
    call it has issued. *)
Theorem zone_resolution_first_match
        (s : DynDNSServer Time) (h ip t : string) (tr : list Call)
        (zones : list (Zone Time)) :
  (forall pre z post,
      zones = (pre ++ z :: post)%list ->
      (forall z', In z' pre -> ~ zoneMatches h z') ->
      (exactMatch h z -> findZone h zones = Some (z, "@"))
      /\ (forall prefix,
             h = prefix ++ "." ++ Zone_Name z ->
             findZone h zones = Some (z, prefix)))
  /\ (forall z name,
         findZone h zones = Some (z, name) ->
         exists pre post,
           zones = (pre ++ z :: post)%list
           /\ (forall z', In z' pre -> ~ zoneMatches h z')
           /\ ((exactMatch h z /\ name = "@")
               \/ (~ exactMatch h z /\ h = name ++ "." ++ Zone_Name z)))
  /\ (GetZones (client s) tr = Ok zones ->
      (forall z, In z zones -> ~ zoneMatches h z) ->
      updateDNSRecord s h ip t tr
      = (Some ("no zone found for hostname: " ++ h),
         (tr ++ [CallGetZones])%list)).
Proof.
  split; [|split].
  - intros pre z post -> Hpre. rewrite (findZone_app_skip h pre _ Hpre).
    split.
    + apply findZone_exact.
    + intros prefix. apply findZone_suffix.
  - apply findZone_Some.
  - intros Hz Hno. rewrite updateDNSRecord_run. cbv zeta. rewrite Hz.
    apply findZone_None in Hno. now rewrite Hno.
Qed.

End ZoneResolution.

(** The cases of [TestUpdateDNSRecord]: [test.example.com] resolves to
    the record [test] of the zone [example.com], and with no zone at
    all the update fails after the zone listing. *)
Lemma zone_resolution_first_match_witness :
  findZone "test.example.com" [Fixtures.zone "zone1" "example.com"]
  = Some (Fixtures.zone "zone1" "example.com", "test")
  /\ findZone "example.com" [Fixtures.zone "zone1" "example.com"]
     = Some (Fixtures.zone "zone1" "example.com", "@")
  /\ updateDNSRecord (Fixtures.server (Fixtures.mockClient [] []))
                     "test.notfound.com" "1.2.3.4" "A" []
     = (Some "no zone found for hostname: test.notfound.com",
        [CallGetZones]).
Proof.
  split; [|split].
  - apply (proj2 (proj1 (zone_resolution_first_match
                    (Fixtures.server (Fixtures.mockClient [] []))
                    "test.example.com" "1.2.3.4" "A" []
                    [Fixtures.zone "zone1" "example.com"])
                 [] (Fixtures.zone "zone1" "example.com") [] eq_refl
                 (fun z' (H : False) => False_ind _ H))).
    reflexivity.
  - apply (proj1 (proj1 (zone_resolution_first_match
                    (Fixtures.server (Fixtures.mockClient [] []))
                    "example.com" "1.2.3.4" "A" []
                    [Fixtures.zone "zone1" "example.com"])
                 [] (Fixtures.zone "zone1" "example.com") [] eq_refl
                 (fun z' (H : False) => False_ind _ H))).
    reflexivity.
  - apply (proj2 (proj2 (zone_resolution_first_match
                    (Fixtures.server (Fixtures.mockClient [] []))
                    "test.notfound.com" "1.2.3.4" "A" [] [])));
      [reflexivity | intros ? []].
Defined.

(** C1 as stated fails: the first zone whose name is the hostname is
    not the result when an earlier zone matches by suffix.  With the
    zones [example.com] and [sub.example.com], in this order, the
    hostname [sub.example.com] resolves to the record [sub] of
    [example.com], not to the apex of [sub.example.com]. *)
Lemma exact_zone_behind_parent_zone :
  let parent := Fixtures.zone "zone1" "example.com" in
  let child := Fixtures.zone "zone2" "sub.example.com" in
  firstExact "sub.example.com" [parent; child] = Some child
  /\ findZone "sub.example.com" [parent; child] = Some (parent, "sub")
  /\ findZone "sub.example.com" [parent; child] <> Some (child, "@").
Proof.
  cbv zeta. split; [reflexivity | split; [reflexivity | discriminate]].
Qed.

(* ------------------------------------------------------------------ *)
(** ** Runs of [handleUpdate] *)

Section Handler.

Context {Time : Type}.
Implicit Types (s : DynDNSServer Time) (w : http.ResponseWriter)
         (r : http.Request) (tr : list Call).

Lemma not_authenticated_guard s r :
  ~ authenticated s r ->
  let '(user, pass, ok) := http.BasicAuth r in
  negb ok || negb (String.eqb user (username s))
  || negb (String.eqb pass (password s)) = true.
Proof.
  intros Hno. destruct (http.BasicAuth r) as [[user pass] ok] eqn:E.
  destruct ok; [|reflexivity]. cbn [negb orb].
  destruct (String.eqb user (username s)) eqn:Eu; [|reflexivity].
  destruct (String.eqb pass (password s)) eqn:Ep; [|reflexivity].
  exfalso. apply Hno. exists user, pass.
  apply String.eqb_eq in Eu, Ep. rewrite E. now repeat split.
Qed.

(** A request that fails the check of the credentials. *)
Lemma handleUpdate_unauthorized s w r tr :
  ~ authenticated s r ->
  handleUpdate s w r tr
  = (http.Error (http.Header_Set "WWW-Authenticate" challenge w)
                "Unauthorized" http.StatusUnauthorized, tr).
Proof.
  intros Hno. apply not_authenticated_guard in Hno.
  unfold handleUpdate.
  destruct (http.BasicAuth r) as [[user pass] ok]. now rewrite Hno.
Qed.

(** Past the check of the credentials, the handler is what follows
    it in the source. *)
Lemma handleUpdate_authorized s w r tr :
  authenticated s r ->
  hostnameOf r <> "" ->
  offlineOf r <> "yes" ->
  handleUpdate s w r tr =
  if negb (String.eqb (myipOf r) "") && negb (isValidIPv4 (myipOf r)) then
    (http.Error w "Invalid IPv4 address" http.StatusBadRequest, tr)
  else if negb (String.eqb (myipv6Of r) "")
          && negb (isValidIPv6 (myipv6Of r)) then
    (http.Error w "Invalid IPv6 address" http.StatusBadRequest, tr)
  else if String.eqb (myipOf r) "" && String.eqb (myipv6Of r) "" then
    (http.Error w "No valid IP address provided or detected"
                http.StatusBadRequest, tr)
  else
    let (e4, tr1) := lane s (hostnameOf r) (myipOf r) "A" tr in
    match e4 with
    | Some _ => (http.Write "911" w, tr1)
    | None =>
        let (e6, tr2) := lane s (hostnameOf r) (myipv6Of r) "AAAA" tr1 in
        match e6 with
        | Some _ => (http.Write "911" w, tr2)
        | None =>
            (http.Write
               ("good " ++
                strings.Join
                  ((if String.eqb (myipOf r) "" then []
                    else [("IPv4: " ++ myipOf r)%string])
                   ++ (if String.eqb (myipv6Of r) "" then []
                       else [("IPv6: " ++ myipv6Of r)%string]))%list
                  ", ") w,
             tr2)
        end
    end.
Proof.
  intros (user & pass & Hb & -> & ->) Hh Ho.
  unfold handleUpdate, lane, hostnameOf, myipOf, myipv6Of, offlineOf in *.
  rewrite Hb, !String.eqb_refl. cbn [negb orb].
  apply String.eqb_neq in Hh, Ho. rewrite Hh, Ho.
  set (hostname := http.Get (http.URL_Query r) "hostname").
  set (myip := http.Get (http.URL_Query r) "myip").
  set (myipv6 := http.Get (http.URL_Query r) "myipv6").
  destruct (String.eqb myip "") eqn:E4; cbn [negb andb].
  - destruct (String.eqb myipv6 "") eqn:E6; cbn [negb andb].
    + reflexivity.
    + destruct (isValidIPv6 myipv6); cbn [negb]; [|reflexivity].
      rewrite E6. cbn [negb andb String.eqb]. unfold bind, ret.
      destruct (updateDNSRecord s hostname myipv6 "AAAA" tr) as [[e|] tr2];
        reflexivity.
  - destruct (isValidIPv4 myip); cbn [negb]; [|reflexivity].
    destruct (String.eqb myipv6 "") eqn:E6; cbn [negb andb].
    + rewrite E4. cbn [negb andb]. unfold bind, ret.
      destruct (updateDNSRecord s hostname myip "A" tr) as [[e|] tr1];
        reflexivity.
    + destruct (isValidIPv6 myipv6); cbn [negb]; [|reflexivity].
      rewrite E4, E6. cbn [negb andb]. unfold bind, ret.
      destruct (updateDNSRecord s hostname myip "A" tr) as [[e|] tr1];
        [reflexivity|].
      destruct (updateDNSRecord s hostname myipv6 "AAAA" tr1) as [[e|] tr2];
        reflexivity.
Qed.

(** The offline flag: the answer is written at once. *)
Lemma handleUpdate_offline s w r tr :
  authenticated s r ->
  hostnameOf r <> "" ->
  offlineOf r = "yes" ->
  handleUpdate s w r tr = (http.Write "good" w, tr).
Proof.
  intros (user & pass & Hb & -> & ->) Hh Ho.
  unfold handleUpdate, hostnameOf, offlineOf in *.
  rewrite Hb, !String.eqb_refl. cbn [negb orb].
  apply String.eqb_neq in Hh. now rewrite Hh, Ho.
Qed.

(** A malformed address that the handler gets to see is refused
    before any call. *)
Lemma handleUpdate_malformed s w r tr :
  authenticated s r ->
  hostnameOf r <> "" ->
  offlineOf r <> "yes" ->
  (myipOf r <> "" /\ isValidIPv4 (myipOf r) = false)
  \/ (myipv6Of r <> "" /\ isValidIPv6 (myipv6Of r) = false) ->
  handleUpdate s w r tr
  = (http.Error w "Invalid IPv4 address" http.StatusBadRequest, tr)
  \/ handleUpdate s w r tr
     = (http.Error w "Invalid IPv6 address" http.StatusBadRequest, tr).
Proof.
  intros Ha Hh Ho Hbad.
  rewrite (handleUpdate_authorized s w r tr Ha Hh Ho).
  destruct (negb (String.eqb (myipOf r) "")
            && negb (isValidIPv4 (myipOf r))) eqn:E4; [now left|].
  destruct Hbad as [[Hs Hv] | [Hs Hv]].
  - apply String.eqb_neq in Hs. rewrite Hs, Hv in E4. discriminate.
  - apply String.eqb_neq in Hs. rewrite Hs, Hv. now right.
Qed.

End Handler.

(* ------------------------------------------------------------------ *)
(** ** C2: update or create *)

Section UpdateOrCreate.

Context {Time : Type}.

Lemma findRecord_skip name t (pre rest : list DNSRecord) :
  (forall r', In r' pre -> ~ recordMatches name t r') ->
  findRecord name t (pre ++ rest) = findRecord name t rest.
Proof.
  induction pre as [|r' pre IH]; intros Hpre; [reflexivity|].
  cbn [app findRecord].
  destruct (String.eqb (DNSRecord_Name r') name) eqn:En;
    destruct (String.eqb (DNSRecord_Type r') t) eqn:Et; cbn [andb];
    try (apply IH; intros; apply Hpre; now right).
  exfalso. apply (Hpre r'); [now left|].
  apply String.eqb_eq in En, Et. now split.
Qed.

Lemma findRecord_first name t r (rest : list DNSRecord) :
  recordMatches name t r -> findRecord name t (r :: rest) = Some r.
Proof.
  intros [Hn Ht]. cbn [findRecord].
  apply String.eqb_eq in Hn, Ht. now rewrite Hn, Ht.
Qed.

Lemma findRecord_None name t (records : list DNSRecord) :
  (forall r, In r records -> ~ recordMatches name t r) ->
  findRecord name t records = None.
Proof.
  intros H. rewrite <- (app_nil_r records). now rewrite findRecord_skip.
Qed.

(** C2.  Once the hostname is resolved to a zone and a record name
    and the records of the zone are fetched, [updateDNSRecord] selects
    the first record of the list whose name and type are the record
    name and the requested type: if there is one, the next and last
    call is an update of the record with that record's ID, carrying
    that record's TTL; if there is none, the next and last call is a
    creation with the TTL 3600.  The handler requests the type "A" for
    the IPv4 address of a request and the type "AAAA" for its IPv6
    address. *)
Theorem update_or_create_decision
        (s : DynDNSServer Time) (h ip t : string) (tr : list Call)
        (zones : list (Zone Time)) (z : Zone Time) (recordName : string)
        (records : list DNSRecord) :
  GetZones (client s) tr = Ok zones ->
  findZone h zones = Some (z, recordName) ->
  GetAllRecords (client s) (tr ++ [CallGetZones])%list (Zone_ID z)
  = Ok records ->
  let listed :=
    (tr ++ [CallGetZones; CallGetAllRecords (Zone_ID z)])%list in
  (forall pre r post,
      records = (pre ++ r :: post)%list ->
      (forall r', In r' pre -> ~ recordMatches recordName t r') ->
      recordMatches recordName t r ->
      snd (updateDNSRecord s h ip t tr)
      = (listed ++
         [CallUpdateRecord (DNSRecord_ID r) (Zone_ID z)
            {| UpdateRecordRequest_Type := t;
               UpdateRecordRequest_Name := recordName;
               UpdateRecordRequest_Value := ip;
               UpdateRecordRequest_TTL := DNSRecord_TTL r |}])%list)
  /\ ((forall r, In r records -> ~ recordMatches recordName t r) ->
      snd (updateDNSRecord s h ip t tr)
      = (listed ++
         [CallCreateRecord
            {| CreateRecordRequest_Type := t;
               CreateRecordRequest_Name := recordName;
               CreateRecordRequest_Value := ip;
               CreateRecordRequest_TTL := Some 3600%Z;
               CreateRecordRequest_ZoneID := Zone_ID z |}])%list)
  /\ (forall w r,
         authenticated s r -> validated r ->
         snd (handleUpdate s w r tr)
         = let (e4, tr1) := lane s (hostnameOf r) (myipOf r) "A" tr in
           match e4 with
           | Some _ => tr1
           | None => snd (lane s (hostnameOf r) (myipv6Of r) "AAAA" tr1)
           end).
Proof.
  intros Hz Hf Hr listed. split; [|split].
  - intros pre r post -> Hpre Hm.
    rewrite updateDNSRecord_run. cbv zeta. rewrite Hz, Hf, Hr.
    now rewrite (findRecord_skip _ _ _ _ Hpre), (findRecord_first _ _ _ _ Hm).
  - intros Hno.
    rewrite updateDNSRecord_run. cbv zeta. rewrite Hz, Hf, Hr.
    now rewrite (findRecord_None _ _ _ Hno).
  - intros w r Ha (Hh & Ho & H4 & H6 & Hsome).
    rewrite (handleUpdate_authorized s w r tr Ha Hh Ho).
    assert (negb (String.eqb (myipOf r) "")
            && negb (isValidIPv4 (myipOf r)) = false) as ->.
    { destruct H4 as [-> | ->]; [reflexivity|].
      now rewrite andb_false_r. }
    assert (negb (String.eqb (myipv6Of r) "")
            && negb (isValidIPv6 (myipv6Of r)) = false) as ->.
    { destruct H6 as [-> | ->]; [reflexivity|].
      now rewrite andb_false_r. }
    assert (String.eqb (myipOf r) "" && String.eqb (myipv6Of r) ""
            = false) as ->.
    { destruct (String.eqb (myipOf r) "") eqn:E4; [|reflexivity].
      destruct (String.eqb (myipv6Of r) "") eqn:E6; [|reflexivity].
      apply String.eqb_eq in E4, E6. exfalso. now apply Hsome. }
    destruct (lane s (hostnameOf r) (myipOf r) "A" tr) as [[e|] tr1];
      [reflexivity|].
    destruct (lane s (hostnameOf r) (myipv6Of r) "AAAA" tr1) as [[e|] tr2];
      reflexivity.
Qed.

End UpdateOrCreate.

(** The first two cases of [TestUpdateDNSRecord]: the record [test]
    of type A exists and is updated under its ID [rec1]; the record
    [new] does not exist and is created with the TTL 3600. *)
Lemma update_or_create_decision_witness :
  snd (updateDNSRecord
         (Fixtures.server
            (Fixtures.mockClient
               [Fixtures.zone "zone1" "example.com"]
               [Fixtures.record "rec1" "A" "test" "1.2.3.3"]))
         "test.example.com" "1.2.3.4" "A" [])
  = [CallGetZones; CallGetAllRecords "zone1";
     CallUpdateRecord "rec1" "zone1"
       (mkUpdateRecordRequest "A" "test" "1.2.3.4" None)]
  /\ snd (updateDNSRecord
            (Fixtures.server
               (Fixtures.mockClient
                  [Fixtures.zone "zone1" "example.com"] []))
            "new.example.com" "1.2.3.4" "A" [])
     = [CallGetZones; CallGetAllRecords "zone1";
        CallCreateRecord
          (mkCreateRecordRequest "A" "new" "1.2.3.4" (Some 3600%Z)
                                 "zone1")].
Proof.
  split.
  - apply (proj1 (update_or_create_decision
                    (Fixtures.server
                       (Fixtures.mockClient
                          [Fixtures.zone "zone1" "example.com"]
                          [Fixtures.record "rec1" "A" "test" "1.2.3.3"]))
                    "test.example.com" "1.2.3.4" "A" []
                    [Fixtures.zone "zone1" "example.com"]
                    (Fixtures.zone "zone1" "example.com") "test"
                    [Fixtures.record "rec1" "A" "test" "1.2.3.3"]
                    eq_refl eq_refl eq_refl)
                 [] (Fixtures.record "rec1" "A" "test" "1.2.3.3") []
                 eq_refl (fun r' (H : False) => False_ind _ H)
                 (conj eq_refl eq_refl)).
  - apply (proj1 (proj2 (update_or_create_decision
                    (Fixtures.server
                       (Fixtures.mockClient
                          [Fixtures.zone "zone1" "example.com"] []))
                    "new.example.com" "1.2.3.4" "A" []
                    [Fixtures.zone "zone1" "example.com"]
                    (Fixtures.zone "zone1" "example.com") "new" []
                    eq_refl eq_refl eq_refl))
                 (fun r (H : False) => False_ind _ H)).
Defined.

(** The requests of the tests present the credentials of the server
    of the tests. *)
Lemma request_authenticated (c : Client unit)
      (query : list (string * string)) :
  authenticated (Fixtures.server c) (Fixtures.request query).
Proof. exists "admin", "password". now repeat split. Qed.

(* ------------------------------------------------------------------ *)
(** ** C8: the authentication gate *)

(** C8.  A request whose Basic-Auth credentials are absent, or whose
    user name or password is not the configured one, gets the status
    401 with a [WWW-Authenticate] challenge header, whatever its
    hostname, myip, myipv6 and offline parameters are, and the handler
    does nothing else: no call goes to the provider. *)
Theorem authentication_gate
        {Time : Type} (s : DynDNSServer Time) (r : http.Request)
        (tr : list Call) :
  (let '(user, pass, ok) := http.BasicAuth r in
   ok = false \/ user <> username s \/ pass <> password s) ->
  let (w, tr') := handleUpdate s http.NewRecorder r tr in
  http.Code w = http.StatusUnauthorized
  /\ http.Header_Get "WWW-Authenticate" (http.Header w) = challenge
  /\ challenge <> ""
  /\ http.Body w = "Unauthorized" ++ http.newline
  /\ tr' = tr.
Proof.
  intros Hbad.
  rewrite handleUpdate_unauthorized.
  - repeat split. discriminate.
  - intros (user & pass & Hb & Hu & Hp). rewrite Hb in Hbad.
    destruct Hbad as [H | [H | H]]; [discriminate | |]; contradiction.
Qed.

(** A case of [TestHandleUpdateAuthentication]: a wrong user name. *)
Lemma authentication_gate_witness :
  let (w, tr') :=
    handleUpdate (Fixtures.server Fixtures.downClient) http.NewRecorder
      {| http.BasicAuth := ("wrong", "password", true);
         http.URL_Query := [("hostname", "test.com");
                            ("myip", "1.2.3.4")] |} [] in
  http.Code w = http.StatusUnauthorized
  /\ http.Header_Get "WWW-Authenticate" (http.Header w) = challenge
  /\ challenge <> ""
  /\ http.Body w = "Unauthorized" ++ http.newline
  /\ tr' = [].
Proof.
  apply (authentication_gate (Fixtures.server Fixtures.downClient)).
  right; left. apply String.eqb_neq. reflexivity.
Defined.

(* ------------------------------------------------------------------ *)
(** ** C6: the offline short-circuit *)

(** C6.  An authenticated request with a hostname and [offline=yes]
    gets the status 200 with the body "good" and nothing else, and no
    call goes to the provider: the calls made are those made before. *)
Theorem offline_short_circuit
        {Time : Type} (s : DynDNSServer Time) (r : http.Request)
        (tr : list Call) :
  authenticated s r ->
  hostnameOf r <> "" ->
  offlineOf r = "yes" ->
  let (w, tr') := handleUpdate s http.NewRecorder r tr in
  http.Code w = http.StatusOK /\ http.Body w = "good" /\ tr' = tr.
Proof.
  intros Ha Hh Ho.
  rewrite (handleUpdate_offline s _ r tr Ha Hh Ho). now repeat split.
Qed.

(** [TestHandleUpdateOffline]: [hostname=test.com&offline=yes]. *)
Lemma offline_short_circuit_witness :
  let (w, tr') :=
    handleUpdate (Fixtures.server Fixtures.downClient) http.NewRecorder
      (Fixtures.request [("hostname", "test.com"); ("offline", "yes")])
      [] in
  http.Code w = http.StatusOK /\ http.Body w = "good" /\ tr' = [].
Proof.
  apply (offline_short_circuit (Fixtures.server Fixtures.downClient)).
  - apply request_authenticated.
  - apply String.eqb_neq. reflexivity.
  - reflexivity.
Defined.

(* ------------------------------------------------------------------ *)
(** ** C5: validation failures *)

Section Validation.

Context {Time : Type}.
Implicit Types (s : DynDNSServer Time) (r : http.Request)
         (tr : list Call).

Lemma handleUpdate_missing_hostname s w r tr :
  authenticated s r ->
  hostnameOf r = "" ->
  handleUpdate s w r tr
  = (http.Error w "Missing hostname parameter" http.StatusBadRequest, tr).
Proof.
  intros (user & pass & Hb & -> & ->) Hh.
  unfold handleUpdate, hostnameOf in *.
  rewrite Hb, !String.eqb_refl, Hh. reflexivity.
Qed.


End Validation.



(* ------------------------------------------------------------------ *)
(** ** C10: the value of the offline flag *)

(** C10.  For an authenticated request with a hostname, only the
    value "yes" of the offline parameter short-circuits: with any
    other value ("no", "YES" and the empty value are such values) the
    handler does what it does for the same request with any other
    value that is not "yes", the empty one included, and a malformed
    myip or myipv6 is then refused with the status 400.  With
    [offline=yes] the addresses are not looked at: the answer is 200
    "good" and no call is made, whatever myip and myipv6 are. *)
Theorem offline_exact_value
        {Time : Type} (s : DynDNSServer Time) (r : http.Request)
        (tr : list Call) :
  authenticated s r ->
  hostnameOf r <> "" ->
  (offlineOf r = "yes" ->
   handleUpdate s http.NewRecorder r tr
   = (http.Write "good" http.NewRecorder, tr)
   /\ http.Code (http.Write "good" http.NewRecorder) = http.StatusOK
   /\ http.Body (http.Write "good" http.NewRecorder) = "good")
  /\ (offlineOf r <> "yes" ->
      (forall w r',
          http.BasicAuth r' = http.BasicAuth r ->
          hostnameOf r' = hostnameOf r ->
          myipOf r' = myipOf r ->
          myipv6Of r' = myipv6Of r ->
          offlineOf r' <> "yes" ->
          handleUpdate s w r' tr = handleUpdate s w r tr)
      /\ ((myipOf r <> "" /\ isValidIPv4 (myipOf r) = false)
          \/ (myipv6Of r <> "" /\ isValidIPv6 (myipv6Of r) = false) ->
          http.Code (fst (handleUpdate s http.NewRecorder r tr))
          = http.StatusBadRequest
          /\ snd (handleUpdate s http.NewRecorder r tr) = tr))
  /\ "no" <> "yes" /\ "YES" <> "yes" /\ "" <> "yes".
Proof.
  intros Ha Hh. split; [|split].
  - intros Ho. rewrite (handleUpdate_offline s _ r tr Ha Hh Ho).
    now repeat split.
  - intros Ho. split.
    + intros w r' Hb' Hh' H4 H6 Ho'.
      assert (authenticated s r') as Ha'.
      { destruct Ha as (user & pass & Hb & Hu & Hp).
        exists user, pass. rewrite Hb'. now repeat split. }
      rewrite <- Hh' in Hh.
      rewrite (handleUpdate_authorized s w r' tr Ha' Hh Ho').
      rewrite Hh' in Hh.
      rewrite (handleUpdate_authorized s w r tr Ha Hh Ho).
      now rewrite Hh', H4, H6.
    + intros Hbad.
      destruct (handleUpdate_malformed s http.NewRecorder r tr
                                       Ha Hh Ho Hbad) as [-> | ->];
        now split.
  - repeat split; discriminate.
Qed.

(** A malformed myip: refused without the flag, and with the flag set
    to "no", accepted unseen with [offline=yes]. *)
Lemma offline_exact_value_witness :
  handleUpdate (Fixtures.server Fixtures.downClient) http.NewRecorder
    (Fixtures.request [("hostname", "test.com"); ("myip", "invalid.ip");
                       ("offline", "yes")]) []
  = (http.Write "good" http.NewRecorder, [])
  /\ http.Code
       (fst (handleUpdate (Fixtures.server Fixtures.downClient)
               http.NewRecorder
               (Fixtures.request [("hostname", "test.com");
                                  ("myip", "invalid.ip");
                                  ("offline", "no")]) []))
     = http.StatusBadRequest.
Proof.
  split.
  - apply (proj1 (offline_exact_value
                    (Fixtures.server Fixtures.downClient)
                    (Fixtures.request [("hostname", "test.com");
                                       ("myip", "invalid.ip");
                                       ("offline", "yes")]) []
                    (request_authenticated _ _)
                    (proj1 (String.eqb_neq "test.com" "") eq_refl))).
    reflexivity.
  - apply (proj2 (proj1 (proj2 (offline_exact_value
                    (Fixtures.server Fixtures.downClient)
                    (Fixtures.request [("hostname", "test.com");
                                       ("myip", "invalid.ip");
                                       ("offline", "no")]) []
                    (request_authenticated _ _)
                    (proj1 (String.eqb_neq "test.com" "") eq_refl)))
                 (proj1 (String.eqb_neq "no" "yes") eq_refl))).
    left. split; [apply String.eqb_neq|]; reflexivity.
Defined.

(* ------------------------------------------------------------------ *)
(** ** C7: the success response *)



(* ------------------------------------------------------------------ *)
(** ** C3: provider failures collapse to "911" *)

(** C3.  For an authenticated and validated request, if a step of the
    IPv4 family fails (the zone listing, the resolution of the
    hostname to a zone, the record listing, or the update or creation
    of the record), or if the IPv4 family is absent or applied and a
    step of the IPv6 family fails, the answer has the status 200 and
    the body "911" and nothing else: not a 4xx status, and no word of
    the IPv4 family that was applied before the IPv6 family failed. *)
Theorem provider_failure_collapse
        {Time : Type} (s : DynDNSServer Time) (r : http.Request)
        (tr : list Call) :
  authenticated s r ->
  validated r ->
  (myipOf r <> "" /\ laneFails s (hostnameOf r) (myipOf r) "A" tr)
  \/ (myipv6Of r <> ""
      /\ fst (lane s (hostnameOf r) (myipOf r) "A" tr) = None
      /\ laneFails s (hostnameOf r) (myipv6Of r) "AAAA"
                   (snd (lane s (hostnameOf r) (myipOf r) "A" tr))) ->
  let w := fst (handleUpdate s http.NewRecorder r tr) in
  http.Code w = http.StatusOK /\ http.Body w = "911".
Proof.
  intros Ha (Hh & Ho & H4 & H6 & Hsome) Hfail. cbv zeta.
  rewrite (handleUpdate_authorized s _ r tr Ha Hh Ho).
  assert (negb (String.eqb (myipOf r) "")
          && negb (isValidIPv4 (myipOf r)) = false) as ->.
  { destruct H4 as [-> | ->]; [reflexivity|].
    now rewrite andb_false_r. }
  assert (negb (String.eqb (myipv6Of r) "")
          && negb (isValidIPv6 (myipv6Of r)) = false) as ->.
  { destruct H6 as [-> | ->]; [reflexivity|].
    now rewrite andb_false_r. }
  assert (String.eqb (myipOf r) "" && String.eqb (myipv6Of r) ""
          = false) as ->.
  { destruct (String.eqb (myipOf r) "") eqn:E4; [|reflexivity].
    destruct (String.eqb (myipv6Of r) "") eqn:E6; [|reflexivity].
    apply String.eqb_eq in E4, E6. exfalso. now apply Hsome. }
  destruct Hfail as [[Hs Hf] | (Hs & Hok & Hf)].
  - apply laneFails_iff in Hf. unfold lane.
    apply String.eqb_neq in Hs. rewrite Hs.
    destruct (updateDNSRecord s (hostnameOf r) (myipOf r) "A" tr)
      as [[e|] tr1]; [now split|].
    now contradiction Hf.
  - destruct (lane s (hostnameOf r) (myipOf r) "A" tr) as [e4 tr1].
    cbn [fst snd] in Hok, Hf. subst e4.
    apply laneFails_iff in Hf. unfold lane.
    apply String.eqb_neq in Hs. rewrite Hs.
    destruct (updateDNSRecord s (hostnameOf r) (myipv6Of r) "AAAA" tr1)
      as [[e|] tr2]; [now split|].
    now contradiction Hf.
Qed.

(** A hostname that matches no zone (the third case of
    [TestUpdateDNSRecord], through the handler), and a provider that
    fails after the IPv4 family was applied. *)
Lemma provider_failure_collapse_witness :
  (let w :=
     fst (handleUpdate
            (Fixtures.server (Fixtures.mockClient [] []))
            http.NewRecorder
            (Fixtures.request [("hostname", "test.notfound.com");
                               ("myip", "1.2.3.4")]) []) in
   http.Code w = http.StatusOK /\ http.Body w = "911")
  /\ (let w :=
        fst (handleUpdate
               (Fixtures.server
                  (Fixtures.flakyClient
                     [Fixtures.zone "zone1" "example.com"] []))
               http.NewRecorder
               (Fixtures.request [("hostname", "test.example.com");
                                  ("myip", "1.2.3.4");
                                  ("myipv6", "2001:db8::1")]) []) in
      http.Code w = http.StatusOK /\ http.Body w = "911").
Proof.
  split.
  - apply (provider_failure_collapse
             (Fixtures.server (Fixtures.mockClient [] []))
             (Fixtures.request [("hostname", "test.notfound.com");
                                ("myip", "1.2.3.4")]) []
             (request_authenticated _ _)).
    + repeat split.
      * apply String.eqb_neq. reflexivity.
      * apply String.eqb_neq. reflexivity.
      * right. reflexivity.
      * left. reflexivity.
      * intros [H _]. apply String.eqb_neq in H; [exact H | reflexivity].
    + left. split; [apply String.eqb_neq; reflexivity|].
      apply (resolutionFails _ _ _ _ _ []); [reflexivity | intros ? []].
  - apply (provider_failure_collapse
             (Fixtures.server
                (Fixtures.flakyClient
                   [Fixtures.zone "zone1" "example.com"] []))
             (Fixtures.request [("hostname", "test.example.com");
                                ("myip", "1.2.3.4");
                                ("myipv6", "2001:db8::1")]) []
             (request_authenticated _ _)).
    + repeat split.
      * apply String.eqb_neq. reflexivity.
      * apply String.eqb_neq. reflexivity.
      * right. reflexivity.
      * right. reflexivity.
      * intros [H _]. apply String.eqb_neq in H; [exact H | reflexivity].
    + right. split; [apply String.eqb_neq; reflexivity|].
      split; [reflexivity|].
      apply (zonesFail _ _ _ _ _ "unreachable"). reflexivity.
Defined.

(* ------------------------------------------------------------------ *)
(** ** C4: the address validators *)

Lemma Count_append (a b : string) (c : ascii) :
  strings.Count (a ++ b) c = (strings.Count a c + strings.Count b c)%nat.
Proof.
  induction a as [|x a IH]; cbn [append strings.Count]; [reflexivity|].
  rewrite IH. lia.
Qed.

(** C4.  [isValidIPv4] accepts "255.255.255.255" and rejects
    "256.1.1.1" and "2001:db8::1"; it rejects every string with a
    colon in it, "2001:db8::1" among them although [net.ParseIP]
    parses it.  [isValidIPv6] accepts "::1" and rejects
    "192.168.1.1". *)
Theorem address_validators :
  isValidIPv4 "255.255.255.255" = true
  /\ isValidIPv4 "256.1.1.1" = false
  /\ isValidIPv4 "2001:db8::1" = false
  /\ (forall a b, isValidIPv4 (a ++ ":" ++ b) = false)
  /\ net.ParseIP "2001:db8::1"
     = Some [32; 1; 13; 184; 0; 0; 0; 0; 0; 0; 0; 0; 0; 0; 0; 1]%N
  /\ isValidIPv6 "::1" = true
  /\ isValidIPv6 "192.168.1.1" = false.
Proof.
  repeat split.
  intros a b. unfold isValidIPv4.
  rewrite Count_append.
  change (strings.Count (":" ++ b) ":") with (S (strings.Count b ":")).
  replace (strings.Count a ":" + S (strings.Count b ":") =? 0)%nat
    with false by (symmetry; apply Nat.eqb_neq; lia).
  apply andb_false_r.
Qed.

(* ------------------------------------------------------------------ *)
(** ** C9: the JSON round trip *)

Section RoundTrip.

Import json.

Lemma coerceUTF8_from_valid (s : string) :
  forall skip,
    utf8.ValidString_from skip s = true -> coerceUTF8_from skip s = s.
Proof.
  induction s as [|c rest IH]; intros skip H; [reflexivity|].
  cbn [utf8.ValidString_from coerceUTF8_from] in *.
  destruct skip as [|skip'].
  - destruct (N_of_ascii c <? 128)%N.
    + now rewrite IH.
    + destruct (utf8.runeSize (String c rest)) as [size|];
        [now rewrite IH | discriminate].
  - now rewrite IH.
Qed.

(** A valid string is written as it is. *)
Lemma coerceUTF8_valid (s : string) :
  utf8.ValidString s = true -> coerceUTF8 s = s.
Proof. apply coerceUTF8_from_valid. Qed.

Lemma decString_encString (s cur : string) :
  utf8.ValidString s = true -> decString (encString s) cur = Some s.
Proof. intros H. unfold encString. now rewrite coerceUTF8_valid. Qed.

Lemma decElems_encString (l : list string) :
  validStrings l = true -> decElems (List.map encString l) = Some l.
Proof.
  induction l as [|s l IH]; [reflexivity|].
  cbn [validStrings forallb List.map decElems].
  intros H. apply andb_prop in H as [Hs Hl].
  rewrite decString_encString by exact Hs.
  unfold validStrings in IH. now rewrite IH.
Qed.

Lemma decStrings_encStrings (l cur : option (list string)) :
  validSlice l = true -> decStrings (encStrings l) cur = Some l.
Proof.
  destruct l as [l|]; [|reflexivity]. cbn [validSlice encStrings decStrings].
  intros H. now rewrite decElems_encString.
Qed.

Lemma decIntPtr_encInt (n : Z) (cur : option Z) :
  isInt n = true -> decIntPtr (encInt n) cur = Some (Some n).
Proof. intros H. cbn. now rewrite H. Qed.

Lemma decInt_encInt (n cur : Z) :
  isInt n = true -> decInt (encInt n) cur = Some n.
Proof. intros H. cbn. now rewrite H. Qed.

Lemma DNSRecord_roundtrip (r : DNSRecord) :
  DNSRecord_wf r = true ->
  DNSRecord_Unmarshal (DNSRecord_Marshal r) = Some r.
Proof.
  destruct r as [id ty name val ttl zid cr mo].
  unfold DNSRecord_wf, validStrings, DNSRecord_Unmarshal,
    DNSRecord_Marshal, omitemptyString, omitemptyIntPtr, encString.
  cbn [forallb DNSRecord_ID DNSRecord_Type DNSRecord_Name
       DNSRecord_Value DNSRecord_TTL DNSRecord_ZoneID DNSRecord_Created
       DNSRecord_Modified].
  intros H. split_andb.
  rewrite !coerceUTF8_valid by assumption.
  omitted id; omitted zid; omitted cr; omitted mo; destruct ttl as [n|];
    cbn in *; use_isInt; reflexivity.
Qed.

Lemma CreateRecordRequest_roundtrip (r : CreateRecordRequest) :
  CreateRecordRequest_wf r = true ->
  CreateRecordRequest_Unmarshal (CreateRecordRequest_Marshal r) = Some r.
Proof.
  destruct r as [ty name val ttl zid].
  unfold CreateRecordRequest_wf, validStrings,
    CreateRecordRequest_Unmarshal, CreateRecordRequest_Marshal,
    omitemptyIntPtr, encString.
  cbn [forallb CreateRecordRequest_Type CreateRecordRequest_Name
       CreateRecordRequest_Value CreateRecordRequest_TTL
       CreateRecordRequest_ZoneID].
  intros H. split_andb.
  rewrite !coerceUTF8_valid by assumption.
  destruct ttl as [n|]; cbn in *; use_isInt; reflexivity.
Qed.

Lemma UpdateRecordRequest_roundtrip (r : UpdateRecordRequest) :
  UpdateRecordRequest_wf r = true ->
  UpdateRecordRequest_Unmarshal (UpdateRecordRequest_Marshal r) = Some r.
Proof.
  destruct r as [ty name val ttl].
  unfold UpdateRecordRequest_wf, validStrings,
    UpdateRecordRequest_Unmarshal, UpdateRecordRequest_Marshal,
    omitemptyIntPtr, encString.
  cbn [forallb UpdateRecordRequest_Type UpdateRecordRequest_Name
       UpdateRecordRequest_Value UpdateRecordRequest_TTL].
  intros H. split_andb.
  rewrite !coerceUTF8_valid by assumption.
  destruct ttl as [n|]; cbn in *; use_isInt; reflexivity.
Qed.

Lemma APIError_roundtrip (e : APIError) :
  APIError_wf e = true ->
  APIError_Unmarshal (APIError_Marshal e) = Some e.
Proof.
  destruct e as [[msg code]].
  unfold APIError_wf, APIError_Unmarshal, APIError_Marshal,
    APIErrorBody_Marshal, encString.
  cbn [APIError_Error APIError_Message APIError_Code].
  intros H. split_andb.
  rewrite !coerceUTF8_valid by assumption.
  cbn in *; use_isInt; reflexivity.
Qed.

Section ZoneRoundTrip.

Context {Time : Type}.
Variable Time_zero : Time.
Variable Time_MarshalJSON : Time -> option value.
Variable Time_UnmarshalJSON : value -> option Time.

Lemma Zone_roundtrip (z : Zone Time) :
  Zone_wf z = true ->
  timeRoundTrips Time_MarshalJSON Time_UnmarshalJSON (Zone_Created z) ->
  timeRoundTrips Time_MarshalJSON Time_UnmarshalJSON (Zone_Verified z) ->
  timeRoundTrips Time_MarshalJSON Time_UnmarshalJSON (Zone_Modified z) ->
  exists j,
    Zone_Marshal Time_MarshalJSON z = Some j
    /\ Zone_Unmarshal Time_zero Time_UnmarshalJSON j = Some z.
Proof.
  destruct z as [id name ttl reg ldh lns ns cr ve mo pr ow pe zt st pa
                 sec [tname token] rc].
  unfold Zone_wf, validStrings, validInts, Zone_Unmarshal, Zone_Marshal.
  cbn [forallb Zone_ID Zone_Name Zone_TTL Zone_Registrar
       Zone_LegacyDNSHost Zone_LegacyNS Zone_NS Zone_Created
       Zone_Verified Zone_Modified Zone_Project Zone_Owner
       Zone_Permission Zone_ZoneType Zone_Status Zone_Paused
       Zone_IsSecondaryDNS Zone_TxtVerification Zone_RecordsCount
       TxtVerification_Name TxtVerification_Token].
  intros H (jc & Hc & Hc') (jv & Hv & Hv') (jm & Hm & Hm').
  split_andb. rewrite Hc, Hv, Hm. eexists. split; [reflexivity|].
  unfold TxtVerification_Marshal, encString.
  rewrite !coerceUTF8_valid by assumption.
  unfold Zone_zero, TxtVerification_zero.
  repeat first
    [ progress cbn [Zone_setField TxtVerification_setField option_map
                    decString decInt decBool decStruct fold_left fst snd
                    encInt encBool TxtVerification_Name
                    TxtVerification_Token]
    | progress eval_fieldIndex
    | match goal with Hi : isInt _ = true |- _ => rewrite Hi end
    | rewrite decStrings_encStrings by assumption
    | rewrite Hc' | rewrite Hv' | rewrite Hm' ].
  reflexivity.
Qed.

(** C9, as amended.  A value of a schema type whose strings are valid
    UTF-8 comes back equal from [json.Marshal] followed by
    [json.Unmarshal]: DNSRecord, CreateRecordRequest,
    UpdateRecordRequest and APIError always, and Zone when each of its
    three timestamps survives [time.Time]'s own way to JSON and back.
    The TTL pointer tells an absent TTL from a TTL of zero: a nil
    pointer writes no "ttl" member and comes back nil, a pointer to 0
    writes the member with the number 0 and comes back as a pointer
    to 0. *)
Theorem json_round_trip :
  (forall r, DNSRecord_wf r = true ->
             DNSRecord_Unmarshal (DNSRecord_Marshal r) = Some r)
  /\ (forall r, CreateRecordRequest_wf r = true ->
                CreateRecordRequest_Unmarshal
                  (CreateRecordRequest_Marshal r) = Some r)
  /\ (forall r, UpdateRecordRequest_wf r = true ->
                UpdateRecordRequest_Unmarshal
                  (UpdateRecordRequest_Marshal r) = Some r)
  /\ (forall e, APIError_wf e = true ->
                APIError_Unmarshal (APIError_Marshal e) = Some e)
  /\ (forall z : Zone Time,
         Zone_wf z = true ->
         timeRoundTrips Time_MarshalJSON Time_UnmarshalJSON
                        (Zone_Created z) ->
         timeRoundTrips Time_MarshalJSON Time_UnmarshalJSON
                        (Zone_Verified z) ->
         timeRoundTrips Time_MarshalJSON Time_UnmarshalJSON
                        (Zone_Modified z) ->
         exists j,
           Zone_Marshal Time_MarshalJSON z = Some j
           /\ Zone_Unmarshal Time_zero Time_UnmarshalJSON j = Some z)
  /\ (omitemptyIntPtr "ttl" None = []
      /\ omitemptyIntPtr "ttl" (Some 0%Z) = [("ttl", Number 0)]
      /\ forall r,
          DNSRecord_wf r = true ->
          DNSRecord_TTL r = None \/ DNSRecord_TTL r = Some 0%Z ->
          option_map DNSRecord_TTL
                     (DNSRecord_Unmarshal (DNSRecord_Marshal r))
          = Some (DNSRecord_TTL r)).
Proof.
  split; [exact DNSRecord_roundtrip|].
  split; [exact CreateRecordRequest_roundtrip|].
  split; [exact UpdateRecordRequest_roundtrip|].
  split; [exact APIError_roundtrip|].
  split; [exact Zone_roundtrip|].
  split; [reflexivity | split; [reflexivity|]].
  intros r Hwf _. now rewrite DNSRecord_roundtrip.
Qed.

End ZoneRoundTrip.

End RoundTrip.

(** The values of [TestDNSRecordJSONMarshaling] and of
    [TestZoneJSONMarshaling] come back as they were. *)
Lemma json_round_trip_witness :
  DNSRecord_Unmarshal (DNSRecord_Marshal Fixtures.exampleRecord)
  = Some Fixtures.exampleRecord
  /\ exists j,
      Zone_Marshal Fixtures.timeText_MarshalJSON Fixtures.exampleZone
      = Some j
      /\ Zone_Unmarshal "" Fixtures.timeText_UnmarshalJSON j
         = Some Fixtures.exampleZone.
Proof.
  split.
  - apply (proj1 (json_round_trip "" Fixtures.timeText_MarshalJSON
                                  Fixtures.timeText_UnmarshalJSON)).
    reflexivity.
  - apply (proj1 (proj2 (proj2 (proj2 (proj2
             (json_round_trip "" Fixtures.timeText_MarshalJSON
                              Fixtures.timeText_UnmarshalJSON)))))).
    + reflexivity.
    + eexists. split; [reflexivity | intros cur; reflexivity].
    + eexists. split; [reflexivity | intros cur; reflexivity].
    + eexists. split; [reflexivity | intros cur; reflexivity].
Defined.

(** C9 as stated fails: a string that is not valid UTF-8 does not come
    back.  For the hostname made of the byte 0xFF followed by
    [.example.com] the bridge builds a creation request whose name is
    the byte 0xFF; the document carries U+FFFD in its place, and that
    is what comes back. *)
Lemma invalid_utf8_not_round_tripped :
  let name := String (ascii_of_nat 255) EmptyString in
  let req := mkCreateRecordRequest "A" name "1.2.3.4" (Some 3600%Z)
                                   "zone1" in
  snd (updateDNSRecord
         (Fixtures.server
            (Fixtures.mockClient [Fixtures.zone "zone1" "example.com"]
                                 []))
         (name ++ ".example.com") "1.2.3.4" "A" [])
  = [CallGetZones; CallGetAllRecords "zone1"; CallCreateRecord req]
  /\ CreateRecordRequest_Unmarshal (CreateRecordRequest_Marshal req)
     = Some (mkCreateRecordRequest "A" json.replacement "1.2.3.4"
                                   (Some 3600%Z) "zone1")
  /\ CreateRecordRequest_Unmarshal (CreateRecordRequest_Marshal req)
     <> Some req.
Proof.
  cbv zeta. split; [reflexivity | split; [reflexivity|]].
  intros H. vm_compute in H. discriminate H.
Qed.


(* ================================================================== *)
(** * Further properties of the bridge *)

Section BridgeContract.

Context {Time : Type}.
Implicit Types (s : DynDNSServer Time) (r : http.Request)
         (tr : list Call) (h ip t : string).

(** The calls of one run of [updateDNSRecord], by where it stops. *)
Lemma updateDNSRecord_calls s h ip t tr :
  exists calls,
    snd (updateDNSRecord s h ip t tr) = (tr ++ calls)%list
    /\ ((calls = [CallGetZones]
         /\ fst (updateDNSRecord s h ip t tr) <> None)
        \/ (exists zid,
               calls = [CallGetZones; CallGetAllRecords zid]
               /\ fst (updateDNSRecord s h ip t tr) <> None)
        \/ (exists zid c,
               calls = [CallGetZones; CallGetAllRecords zid; c]
               /\ isWrite c = true)).
Proof.
  rewrite updateDNSRecord_run. cbv zeta.
  destruct (GetZones (client s) tr) as [zones|e].
  2:{ exists [CallGetZones]. split; [reflexivity|]. left.
      split; [reflexivity | discriminate]. }
  destruct (findZone h zones) as [[z name]|].
  2:{ exists [CallGetZones]. split; [reflexivity|]. left.
      split; [reflexivity | discriminate]. }
  destruct (GetAllRecords _ _ _) as [records|e].
  2:{ eexists. split; [reflexivity|]. right; left. eexists.
      split; [reflexivity | discriminate]. }
  destruct (findRecord name t records) as [rec|]; cbn [fst snd];
    rewrite <- app_assoc; eexists; (split; [reflexivity|]);
    right; right; eexists; eexists; split; reflexivity.
Qed.

(** X1.  One run of [updateDNSRecord] adds to the calls made before it
    the zone listing, then at most the record listing of one zone,
    then at most one write (an update or a creation, never both), and
    nothing else; it returns no error only when the write was made. *)
Theorem updateDNSRecord_call_discipline s h ip t tr :
  exists calls,
    snd (updateDNSRecord s h ip t tr) = (tr ++ calls)%list
    /\ ((calls = [CallGetZones]
         /\ fst (updateDNSRecord s h ip t tr) <> None)
        \/ (exists zid,
               calls = [CallGetZones; CallGetAllRecords zid]
               /\ fst (updateDNSRecord s h ip t tr) <> None)
        \/ (exists zid c,
               calls = [CallGetZones; CallGetAllRecords zid; c]
               /\ isWrite c = true)).
Proof. apply updateDNSRecord_calls. Qed.

Lemma lane_calls s h ip t tr :
  exists calls,
    snd (lane s h ip t tr) = (tr ++ calls)%list
    /\ (List.length calls <= 3)%nat.
Proof.
  unfold lane. destruct (String.eqb ip "").
  - exists []. split; [now rewrite app_nil_r | cbn; lia].
  - destruct (updateDNSRecord_calls s h ip t tr)
      as (calls & -> & [[-> _] | [(zid & -> & _) | (zid & c & -> & _)]]);
      eexists; (split; [reflexivity | cbn; lia]).
Qed.

Lemma authenticated_dec s r : authenticated s r \/ ~ authenticated s r.
Proof.
  destruct (http.BasicAuth r) as [[user pass] ok] eqn:E.
  destruct ok.
  - destruct (String.eqb_spec user (username s)) as [Hu|Hu].
    + destruct (String.eqb_spec pass (password s)) as [Hp|Hp].
      * left. exists user, pass. now rewrite E.
      * right. intros (u & p & Hb & _ & Hp'). rewrite E in Hb.
        injection Hb as <- <-. contradiction.
    + right. intros (u & p & Hb & Hu' & _). rewrite E in Hb.
      injection Hb as <- <-. contradiction.
  - right. intros (u & p & Hb & _). rewrite E in Hb. discriminate.
Qed.

(** What the handler does with a request that is authenticated, not
    answered by the offline flag, and not validated: a 400 and no
    call. *)
Lemma handleUpdate_not_validated s w r tr :
  authenticated s r ->
  ~ shortCircuited r ->
  ~ validated r ->
  exists msg,
    handleUpdate s w r tr = (http.Error w msg http.StatusBadRequest, tr).
Proof.
  intros Ha Hns Hnv.
  destruct (String.eqb_spec (hostnameOf r) "") as [Hh|Hh].
  { eexists. now apply handleUpdate_missing_hostname. }
  destruct (String.eqb_spec (offlineOf r) "yes") as [Ho|Ho].
  { exfalso. apply Hns. now split. }
  rewrite (handleUpdate_authorized s w r tr Ha Hh Ho).
  destruct (String.eqb_spec (myipOf r) "") as [H4|H4]; cbn [negb andb].
  - destruct (String.eqb_spec (myipv6Of r) "") as [H6|H6];
      cbn [negb andb]; [eexists; reflexivity|].
    destruct (isValidIPv6 (myipv6Of r)) eqn:V6; cbn [negb];
      [|eexists; reflexivity].
    exfalso. apply Hnv. repeat split; auto. intros [_ H]. contradiction.
  - destruct (isValidIPv4 (myipOf r)) eqn:V4; cbn [negb];
      [|eexists; reflexivity].
    destruct (String.eqb_spec (myipv6Of r) "") as [H6|H6];
      cbn [negb andb].
    + exfalso. apply Hnv. repeat split; auto. intros [H _].
      contradiction.
    + destruct (isValidIPv6 (myipv6Of r)) eqn:V6; cbn [negb];
        [|eexists; reflexivity].
      exfalso. apply Hnv. repeat split; auto. intros [H _].
      contradiction.
Qed.

(** What the handler does with a validated request: the two lanes,
    and "911" or the summary. *)
Lemma handleUpdate_validated s w r tr :
  authenticated s r ->
  validated r ->
  handleUpdate s w r tr =
  let (e4, tr1) := lane s (hostnameOf r) (myipOf r) "A" tr in
  match e4 with
  | Some _ => (http.Write "911" w, tr1)
  | None =>
      let (e6, tr2) := lane s (hostnameOf r) (myipv6Of r) "AAAA" tr1 in
      match e6 with
      | Some _ => (http.Write "911" w, tr2)
      | None =>
          (http.Write
             ("good " ++
              strings.Join
                ((if String.eqb (myipOf r) "" then []
                  else [("IPv4: " ++ myipOf r)%string])
                 ++ (if String.eqb (myipv6Of r) "" then []
                     else [("IPv6: " ++ myipv6Of r)%string]))%list
                ", ") w,
           tr2)
      end
  end.
Proof.
  intros Ha (Hh & Ho & H4 & H6 & Hsome).
  rewrite (handleUpdate_authorized s w r tr Ha Hh Ho).
  assert (negb (String.eqb (myipOf r) "")
          && negb (isValidIPv4 (myipOf r)) = false) as ->.
  { destruct H4 as [-> | ->]; [reflexivity|].
    now rewrite andb_false_r. }
  assert (negb (String.eqb (myipv6Of r) "")
          && negb (isValidIPv6 (myipv6Of r)) = false) as ->.
  { destruct H6 as [-> | ->]; [reflexivity|].
    now rewrite andb_false_r. }
  assert (String.eqb (myipOf r) "" && String.eqb (myipv6Of r) ""
          = false) as ->.
  { destruct (String.eqb (myipOf r) "") eqn:E4; [|reflexivity].
    destruct (String.eqb (myipv6Of r) "") eqn:E6; [|reflexivity].
    apply String.eqb_eq in E4, E6. exfalso. now apply Hsome. }
  reflexivity.
Qed.

Lemma validated_dec r : validated r \/ ~ validated r.
Proof.
  unfold validated.
  destruct (String.eqb_spec (hostnameOf r) "") as [Hh|Hh];
    [right; tauto|].
  destruct (String.eqb_spec (offlineOf r) "yes") as [Ho|Ho];
    [right; tauto|].
  destruct (String.eqb_spec (myipOf r) "") as [H4|H4];
    destruct (String.eqb_spec (myipv6Of r) "") as [H6|H6];
    destruct (isValidIPv4 (myipOf r)) eqn:V4;
    destruct (isValidIPv6 (myipv6Of r)) eqn:V6;
    try (left; repeat split; auto; tauto);
    right; intros (_ & _ & [?|?] & [?|?] & ?);
    try contradiction; try discriminate; tauto.
Qed.

Lemma shortCircuited_dec r : shortCircuited r \/ ~ shortCircuited r.
Proof.
  unfold shortCircuited.
  destruct (String.eqb_spec (hostnameOf r) "") as [Hh|Hh];
    [right; tauto|].
  destruct (String.eqb_spec (offlineOf r) "yes") as [Ho|Ho];
    [left|right]; tauto.
Qed.

(** X2.  The handler reaches the provider only for a request that is
    authenticated and validated, and then with at most six calls,
    added to those made before. *)
Theorem handleUpdate_provider_calls s w r tr :
  exists calls,
    snd (handleUpdate s w r tr) = (tr ++ calls)%list
    /\ (List.length calls <= 6)%nat
    /\ (calls <> [] -> authenticated s r /\ validated r).
Proof.
  assert (forall tr', tr' = tr ->
            exists calls,
              tr' = (tr ++ calls)%list
              /\ (List.length calls <= 6)%nat
              /\ (calls <> [] -> authenticated s r /\ validated r))
    as Hnone.
  { intros tr' ->. exists []. rewrite app_nil_r.
    split; [reflexivity|]. split; [cbn; lia|]. intros H. now contradiction H. }
  destruct (authenticated_dec s r) as [Ha|Hna].
  2:{ apply Hnone. now rewrite handleUpdate_unauthorized. }
  destruct (validated_dec r) as [Hv|Hnv].
  - rewrite (handleUpdate_validated s w r tr Ha Hv).
    destruct (lane_calls s (hostnameOf r) (myipOf r) "A" tr)
      as (c4 & E4 & L4).
    destruct (lane s (hostnameOf r) (myipOf r) "A" tr) as [e4 tr1].
    cbn [snd] in E4. subst tr1.
    destruct e4 as [e|].
    + exists c4. split; [reflexivity|]. split; [lia|]. now intros _.
    + destruct (lane_calls s (hostnameOf r) (myipv6Of r) "AAAA"
                           (tr ++ c4)%list) as (c6 & E6 & L6).
      destruct (lane s (hostnameOf r) (myipv6Of r) "AAAA" (tr ++ c4)%list)
        as [e6 tr2].
      cbn [snd] in E6. subst tr2.
      exists (c4 ++ c6)%list. rewrite app_assoc, length_app.
      destruct e6; (split; [reflexivity|]); (split; [lia|]); now intros _.
  - apply Hnone.
    destruct (shortCircuited_dec r) as [[Hh Ho]|Hns].
    + now rewrite (handleUpdate_offline s w r tr Ha Hh Ho).
    + destruct (handleUpdate_not_validated s w r tr Ha Hns Hnv)
        as (msg & ->).
      reflexivity.
Qed.

(** X3.  The status of the answer, for every request: 401 exactly when
    the request is not authenticated; 400 exactly when it is
    authenticated, not answered by the offline flag and not validated;
    200 exactly when it is authenticated and either answered by the
    offline flag or validated (whether or not the provider then
    fails).  There is no other status. *)
Theorem handleUpdate_status s r tr :
  let code := http.Code (fst (handleUpdate s http.NewRecorder r tr)) in
  (code = http.StatusUnauthorized <-> ~ authenticated s r)
  /\ (code = http.StatusBadRequest <->
      authenticated s r /\ ~ shortCircuited r /\ ~ validated r)
  /\ (code = http.StatusOK <->
      authenticated s r /\ (shortCircuited r \/ validated r))
  /\ (code = http.StatusUnauthorized \/ code = http.StatusBadRequest
      \/ code = http.StatusOK).
Proof.
  cbv zeta.
  assert (forall r, validated r -> ~ shortCircuited r) as Hexcl.
  { intros r0 (_ & Ho & _) [_ Ho']. contradiction. }
  destruct (authenticated_dec s r) as [Ha|Hna].
  2:{ rewrite handleUpdate_unauthorized by assumption. cbn.
      repeat split; try tauto; try discriminate; intros; tauto. }
  destruct (validated_dec r) as [Hv|Hnv].
  - assert (http.Code (fst (handleUpdate s http.NewRecorder r tr))
            = http.StatusOK) as ->.
    { rewrite (handleUpdate_validated s _ r tr Ha Hv).
      destruct (lane s (hostnameOf r) (myipOf r) "A" tr) as [[e|] tr1];
        [reflexivity|].
      destruct (lane s (hostnameOf r) (myipv6Of r) "AAAA" tr1)
        as [[e|] tr2]; reflexivity. }
    repeat split; try tauto; try discriminate; intros; tauto.
  - destruct (shortCircuited_dec r) as [[Hh Ho]|Hns].
    + rewrite (handleUpdate_offline s _ r tr Ha Hh Ho). cbn.
      unfold shortCircuited.
      repeat split; try tauto; try discriminate; intros; tauto.
    + destruct (handleUpdate_not_validated s http.NewRecorder r tr
                                           Ha Hns Hnv) as (msg & ->).
      cbn.
      repeat split; try tauto; try discriminate; intros; tauto.
Qed.

End BridgeContract.

Lemma string_app_assoc (a b c : string) : (a ++ b) ++ c = a ++ b ++ c.
Proof. induction a as [|x a IH]; cbn; [reflexivity | now rewrite IH]. Qed.

Section BridgeEdges.

Context {Time : Type}.
Implicit Types (s : DynDNSServer Time) (r : http.Request)
         (tr : list Call) (h ip t : string).

(** A run of [updateDNSRecord] that returns no error has written the
    address under the requested type. *)
Lemma updateDNSRecord_success_writes s h ip t tr :
  fst (updateDNSRecord s h ip t tr) = None ->
  exists before c name,
    snd (updateDNSRecord s h ip t tr) = (tr ++ before ++ [c])%list
    /\ writeOf c = Some (t, name, ip).
Proof.
  rewrite updateDNSRecord_run. cbv zeta.
  destruct (GetZones (client s) tr) as [zones|e]; [|discriminate].
  destruct (findZone h zones) as [[z name]|]; [|discriminate].
  destruct (GetAllRecords _ _ _) as [records|e]; [|discriminate].
  destruct (findRecord name t records) as [rec|]; cbn [fst snd];
    intros _; rewrite <- app_assoc; eexists; eexists; exists name;
    (split; [reflexivity|]); reflexivity.
Qed.

(** X4.  The two address families are not applied as one: when the
    IPv4 family of an authenticated, validated request is applied and
    a step of its IPv6 family then fails, the answer is "911" although
    the A record was written with the new address, and that write
    stays among the calls made. *)
Theorem failure_after_partial_write s r tr :
  authenticated s r ->
  validated r ->
  myipOf r <> "" ->
  myipv6Of r <> "" ->
  fst (lane s (hostnameOf r) (myipOf r) "A" tr) = None ->
  laneFails s (hostnameOf r) (myipv6Of r) "AAAA"
            (snd (lane s (hostnameOf r) (myipOf r) "A" tr)) ->
  http.Body (fst (handleUpdate s http.NewRecorder r tr)) = "911"
  /\ exists before c name after,
      snd (handleUpdate s http.NewRecorder r tr)
      = (tr ++ before ++ c :: after)%list
      /\ writeOf c = Some ("A", name, myipOf r).
Proof.
  intros Ha Hv H4 H6 Hok Hfail.
  rewrite (handleUpdate_validated s _ r tr Ha Hv).
  unfold lane in *.
  apply String.eqb_neq in H4, H6. rewrite H4 in *. rewrite H6.
  destruct (updateDNSRecord_success_writes s _ _ _ tr Hok)
    as (before & c & name & Etr & Hc).
  destruct (updateDNSRecord s (hostnameOf r) (myipOf r) "A" tr)
    as [e4 tr1].
  cbn [fst snd] in *. subst e4 tr1.
  apply laneFails_iff in Hfail.
  destruct (updateDNSRecord_extends s (hostnameOf r) (myipv6Of r) "AAAA"
              (tr ++ before ++ [c])%list) as (calls & Ecalls).
  destruct (updateDNSRecord s (hostnameOf r) (myipv6Of r) "AAAA"
              (tr ++ before ++ [c])%list) as [[e|] tr2];
    [|now contradiction Hfail].
  cbn [fst snd] in *. split; [reflexivity|].
  exists before, c, name, (CallGetZones :: calls). split; [|exact Hc].
  rewrite Ecalls. now rewrite <- !app_assoc.
Qed.

Lemma findZone_stops h (z : Zone Time) pre rest :
  zoneMatches h z ->
  findZone h (pre ++ z :: rest) = findZone h (pre ++ [z])
  /\ findZone h (pre ++ z :: rest) <> None.
Proof.
  intros Hm. induction pre as [|z0 pre IH]; cbn [app findZone].
  - destruct (String.eqb h (Zone_Name z)) eqn:E;
      [split; [reflexivity | discriminate]|].
    destruct Hm as [Hx | Hs].
    + apply String.eqb_neq in E. contradiction.
    + apply suffixMatch_iff in Hs. rewrite Hs.
      split; [reflexivity | discriminate].
  - destruct (String.eqb h (Zone_Name z0));
      [split; [reflexivity | discriminate]|].
    destruct (strings.HasSuffix h ("." ++ Zone_Name z0));
      [split; [reflexivity | discriminate]|].
    exact IH.
Qed.

(** X5.  A zone listed after a zone of which it is a subdomain is out
    of reach: for every hostname that matches the child zone (its
    apex or a name under it), the resolution is the same whatever
    follows the parent zone in the list, and it is not empty; the
    child zone's own entry is never looked at. *)
Theorem child_zone_behind_parent_unreachable
        h (parent child : Zone Time) label pre rest :
  Zone_Name child = label ++ "." ++ Zone_Name parent ->
  zoneMatches h child ->
  findZone h (pre ++ parent :: rest) = findZone h (pre ++ [parent])
  /\ findZone h (pre ++ parent :: rest) <> None.
Proof.
  intros Hname Hm. apply findZone_stops. right.
  destruct Hm as [Hx | [q Hq]].
  - exists label. unfold exactMatch in Hx. now rewrite Hx.
  - exists (q ++ "." ++ label). rewrite Hq, Hname.
    now rewrite !string_app_assoc.
Qed.

End BridgeEdges.

(** A dual-stack request against a provider that fails after the
    first family. *)
Lemma failure_after_partial_write_witness :
  let r := Fixtures.request [("hostname", "test.example.com");
                             ("myip", "1.2.3.4");
                             ("myipv6", "2001:db8::1")] in
  let s := Fixtures.server
             (Fixtures.flakyClient
                [Fixtures.zone "zone1" "example.com"] []) in
  http.Body (fst (handleUpdate s http.NewRecorder r [])) = "911"
  /\ exists before c name after,
      snd (handleUpdate s http.NewRecorder r [])
      = ([] ++ before ++ c :: after)%list
      /\ writeOf c = Some ("A", name, "1.2.3.4").
Proof.
  cbv zeta.
  apply (failure_after_partial_write
           (Fixtures.server
              (Fixtures.flakyClient
                 [Fixtures.zone "zone1" "example.com"] []))
           (Fixtures.request [("hostname", "test.example.com");
                              ("myip", "1.2.3.4");
                              ("myipv6", "2001:db8::1")]) []
           (request_authenticated _ _)).
  - repeat split.
    + apply String.eqb_neq. reflexivity.
    + apply String.eqb_neq. reflexivity.
    + right. reflexivity.
    + right. reflexivity.
    + intros [H _]. apply String.eqb_neq in H; [exact H | reflexivity].
  - apply String.eqb_neq. reflexivity.
  - apply String.eqb_neq. reflexivity.
  - reflexivity.
  - apply (zonesFail _ _ _ _ _ "unreachable"). reflexivity.
Defined.

(** The zones [example.com] and [sub.example.com], in this order: a
    host of the child zone is resolved in the parent zone. *)
Lemma child_zone_behind_parent_unreachable_witness :
  findZone "www.sub.example.com"
           ([] ++ Fixtures.zone "zone1" "example.com"
               :: [Fixtures.zone "zone2" "sub.example.com"])
  = findZone "www.sub.example.com"
             ([] ++ [Fixtures.zone "zone1" "example.com"])
  /\ findZone "www.sub.example.com"
              ([] ++ Fixtures.zone "zone1" "example.com"
                  :: [Fixtures.zone "zone2" "sub.example.com"])
     <> None.
Proof.
  apply (child_zone_behind_parent_unreachable
           "www.sub.example.com"
           (Fixtures.zone "zone1" "example.com")
           (Fixtures.zone "zone2" "sub.example.com") "sub").
  - reflexivity.
  - right. exists "www". reflexivity.
Defined.

(* ------------------------------------------------------------------ *)
(** ** The validators *)

Section Validators.

Lemma isDigit_not_special (c : ascii) :
  net.isDigit c = true ->
  Ascii.eqb c "." = false /\ Ascii.eqb c ":" = false
  /\ Ascii.eqb c "%" = false.
Proof.
  intros H. repeat split;
    match goal with
    | |- Ascii.eqb c ?x = false =>
        destruct (Ascii.eqb_spec c x) as [->|]; [discriminate H | reflexivity]
    end.
Qed.

(** A string that [parseIPv4Fields] accepts is made of digits and
    dots. *)
Lemma parseIPv4Fields_loop_chars s :
  forall first prevDot val digLen fields r,
    net.parseIPv4Fields_loop s first prevDot val digLen fields = Some r ->
    allChars digitOrDot s = true.
Proof.
  induction s as [|c rest IH]; intros first prevDot val digLen fields r H;
    [reflexivity|].
  cbn [net.parseIPv4Fields_loop allChars] in *. unfold digitOrDot at 1.
  destruct (net.isDigit c).
  - destruct ((digLen =? 1)%nat && (val =? 0)%N); [discriminate|].
    destruct (255 <? val * 10 + (N_of_ascii c - 48))%N; [discriminate|].
    cbn [orb andb]. eapply IH, H.
  - destruct (Ascii.eqb c "."); [|discriminate].
    destruct (first || _ || prevDot); [discriminate|].
    destruct (List.length fields =? 3)%nat; [discriminate|].
    cbn [orb andb]. eapply IH, H.
Qed.

(** It has a dot when fewer than three fields were stored. *)
Lemma parseIPv4Fields_loop_dot s :
  forall first prevDot val digLen fields r,
    (List.length fields < 3)%nat ->
    net.parseIPv4Fields_loop s first prevDot val digLen fields = Some r ->
    net.contains s "." = true.
Proof.
  induction s as [|c rest IH]; intros first prevDot val digLen fields r L H;
    cbn [net.parseIPv4Fields_loop net.contains] in *.
  - apply Nat.ltb_lt in L. rewrite L in H. discriminate.
  - destruct (net.isDigit c) eqn:D.
    + destruct ((digLen =? 1)%nat && (val =? 0)%N); [discriminate|].
      destruct (255 <? val * 10 + (N_of_ascii c - 48))%N; [discriminate|].
      rewrite (IH _ _ _ _ _ _ L H). apply orb_true_r.
    + destruct (Ascii.eqb c "."); [reflexivity | discriminate].
Qed.

(** The octets it returns are four, each at most 255. *)
Lemma parseIPv4Fields_loop_octets s :
  forall first prevDot val digLen fields r,
    (List.length fields <= 3)%nat ->
    Forall (fun x => x <= 255)%N fields ->
    (val <= 255)%N ->
    net.parseIPv4Fields_loop s first prevDot val digLen fields = Some r ->
    List.length r = 4%nat /\ Forall (fun x => x <= 255)%N r.
Proof.
  induction s as [|c rest IH];
    intros first prevDot val digLen fields r L F V H;
    cbn [net.parseIPv4Fields_loop] in H.
  - destruct (List.length fields <? 3)%nat eqn:E; [discriminate|].
    apply Nat.ltb_ge in E. injection H as <-. split.
    + rewrite length_app. cbn. lia.
    + apply Forall_app. split; [exact F | now constructor].
  - destruct (net.isDigit c).
    + destruct ((digLen =? 1)%nat && (val =? 0)%N); [discriminate|].
      destruct (255 <? val * 10 + (N_of_ascii c - 48))%N eqn:E;
        [discriminate|].
      apply N.ltb_ge in E. eapply IH; eauto.
    + destruct (Ascii.eqb c "."); [|discriminate].
      destruct (first || _ || prevDot); [discriminate|].
      destruct (List.length fields =? 3)%nat eqn:E; [discriminate|].
      apply Nat.eqb_neq in E. eapply IH; [| | |exact H].
      * rewrite length_app. cbn. lia.
      * apply Forall_app. split; [exact F | now constructor].
      * lia.
Qed.

Lemma allChars_no_colon s :
  allChars digitOrDot s = true -> strings.Count s ":" = 0%nat.
Proof.
  induction s as [|c rest IH]; [reflexivity|].
  cbn [allChars strings.Count]. intros H.
  apply andb_prop in H as [Hc Hrest]. rewrite (IH Hrest).
  unfold digitOrDot in Hc. apply orb_prop in Hc as [Hc | Hc].
  - destruct (isDigit_not_special c Hc) as (_ & -> & _). reflexivity.
  - apply Ascii.eqb_eq in Hc. subst c. reflexivity.
Qed.

(** On digits and dots, the scan of [ParseAddr] selects the
    dotted-decimal grammar at the first dot. *)
Lemma dispatch_digits_dots whole s :
  allChars digitOrDot s = true ->
  net.dispatch whole s
  = if net.contains s "." then net.parseIPv4 whole else None.
Proof.
  induction s as [|c rest IH]; [reflexivity|].
  cbn [allChars net.dispatch net.contains]. intros H.
  apply andb_prop in H as [Hc Hrest].
  destruct (Ascii.eqb c ".") eqn:E; [reflexivity|].
  unfold digitOrDot in Hc. rewrite E, orb_false_r in Hc.
  destruct (isDigit_not_special c Hc) as (_ & -> & ->).
  cbn [orb]. now apply IH.
Qed.

(** Without a colon, only the dotted-decimal grammar can accept. *)
Lemma dispatch_no_colon whole s x :
  strings.Count s ":" = 0%nat ->
  net.dispatch whole s = Some x ->
  net.parseIPv4 whole = Some x.
Proof.
  induction s as [|c rest IH]; cbn [strings.Count net.dispatch];
    [discriminate|].
  intros Hc H.
  destruct (Ascii.eqb c ".") eqn:E1; [exact H|].
  destruct (Ascii.eqb c ":") eqn:E2; [discriminate Hc|].
  destruct (Ascii.eqb c "%"); [discriminate|].
  now apply IH.
Qed.

(** X6.  [isValidIPv4] accepts exactly the strings that the
    dotted-decimal grammar accepts, and these stand for four octets of
    at most 255 each; no string passes both validators; the two
    together accept exactly what [net.ParseIP] parses; and the empty
    string passes neither, so an accepted address is never taken for
    an absent one. *)
Theorem validators_partition (ip : string) :
  (isValidIPv4 ip = true <->
   exists a b c d,
     net.parseIPv4Fields ip = Some [a; b; c; d]
     /\ (a <= 255 /\ b <= 255 /\ c <= 255 /\ d <= 255)%N)
  /\ isValidIPv4 ip && isValidIPv6 ip = false
  /\ (isValidIPv4 ip || isValidIPv6 ip = true <-> net.ParseIP ip <> None)
  /\ (isValidIPv4 ip || isValidIPv6 ip = true -> ip <> "").
Proof.
  split; [|split; [|split]].
  - split.
    + unfold isValidIPv4. intros H. apply andb_prop in H as [Hp Hc].
      apply Nat.eqb_eq in Hc.
      destruct (net.ParseIP ip) as [x|] eqn:E; [|discriminate].
      apply (dispatch_no_colon ip ip x Hc) in E.
      unfold net.parseIPv4 in E.
      destruct (net.parseIPv4Fields ip) as [fields|] eqn:Ef;
        [|discriminate].
      destruct (parseIPv4Fields_loop_octets ip true false 0%N 0%nat []
                  fields (Nat.le_0_l 3) (Forall_nil _) (N.le_0_l 255) Ef)
        as [L F].
      destruct fields as [|a [|b [|c [|d [|]]]]]; try discriminate L.
      exists a, b, c, d. split; [reflexivity|].
      inversion F as [|? ? Ha F1]; inversion F1 as [|? ? Hb F2];
        inversion F2 as [|? ? Hc' F3]; inversion F3 as [|? ? Hd F4].
      now repeat split.
    + intros (a & b & c & d & Hf & _).
      pose proof (parseIPv4Fields_loop_chars ip _ _ _ _ _ _ Hf) as Hchars.
      pose proof (parseIPv4Fields_loop_dot ip true false 0%N 0%nat [] _
                    (Nat.lt_0_succ 2) Hf) as Hdot.
      unfold isValidIPv4, net.ParseIP.
      rewrite (dispatch_digits_dots ip ip Hchars), Hdot.
      unfold net.parseIPv4. rewrite Hf.
      now rewrite (allChars_no_colon ip Hchars).
  - unfold isValidIPv4, isValidIPv6.
    destruct (strings.Count ip ":"); cbn;
      now rewrite ?andb_false_r.
  - unfold isValidIPv4, isValidIPv6.
    destruct (net.ParseIP ip); destruct (strings.Count ip ":"); cbn;
      split; congruence.
  - intros H ->. discriminate H.
Qed.

End Validators.

(* ================================================================== *)
(** * The provider client *)

Section ClientContract.

Import json.

Context {Time : Type}.
Variable Time_zero : Time.
Variable Time_UnmarshalJSON : value -> option Time.
Variable parseJSON : string -> option value.
Variable syntaxError : string -> string.
Variable typeError : string -> string.
Variable newRequestError : string -> string -> option string.
Variable Do : HTTPRequest -> result HTTPResponse.

(** A document none of whose members names a field leaves the struct
    as it is. *)
Lemma decStruct_unknown_keys {T : Type} names
      (setField : nat -> value -> T -> option T) members (cur : T) :
  noKnownKey names members ->
  decStruct names setField (Object members) cur = Some cur.
Proof.
  unfold noKnownKey. cbn [decStruct]. revert cur.
  induction members as [|[k v] members IH]; intros cur H; [reflexivity|].
  cbn [fold_left fst snd].
  rewrite (H k v) by now left.
  apply IH. intros k' v' Hin. apply (H k' v'). now right.
Qed.

Lemma non2xx_guard (code : Z) :
  ~ is2xx code -> (code <? 200)%Z || (300 <=? code)%Z = true.
Proof.
  unfold is2xx. intros H.
  destruct (code <? 200)%Z eqn:E1; [reflexivity|].
  destruct (300 <=? code)%Z eqn:E2; [reflexivity|].
  apply Z.ltb_ge in E1. apply Z.leb_gt in E2. exfalso. apply H. lia.
Qed.

Lemma is2xx_guard (code : Z) :
  is2xx code -> (code <? 200)%Z || (300 <=? code)%Z = false.
Proof.
  unfold is2xx. intros [H1 H2].
  apply Z.ltb_ge in H1. apply Z.leb_gt in H2. now rewrite H1, H2.
Qed.

(** An answer whose status is not 2xx is an error for
    [handleResponse]. *)
Lemma handleResponse_non_2xx_err {T : Type} (resp : HTTPResponse)
      (result_ : option (value -> T -> option T)) (cur : T)
      (body : string) :
  Resp_Body resp = Ok body ->
  ~ is2xx (StatusCode resp) ->
  exists err,
    handleResponse parseJSON syntaxError typeError resp result_ cur
    = Err err.
Proof.
  intros Hb Hcode. unfold handleResponse, Unmarshal.
  rewrite Hb, (non2xx_guard _ Hcode).
  destruct (parseJSON body) as [v|]; [|eexists; reflexivity].
  destruct (APIError_dec v APIError_zero); eexists; reflexivity.
Qed.

(** X7.  [handleResponse] turns every answer whose status is not 2xx
    into an error, whatever the caller wanted to read.  The error
    names the status and the body only when the body does not decode
    as an error envelope; a body that is [null] or a JSON object
    without an "error" member decodes as the empty envelope, and the
    error is then "API error: " with nothing after it: the status is
    not reported. *)
Theorem handleResponse_non_2xx {T : Type} (resp : HTTPResponse)
        (result_ : option (value -> T -> option T)) (cur : T)
        (body : string) :
  Resp_Body resp = Ok body ->
  ~ is2xx (StatusCode resp) ->
  (exists err,
      handleResponse parseJSON syntaxError typeError resp result_ cur
      = Err err)
  /\ (parseJSON body = None ->
      handleResponse parseJSON syntaxError typeError resp result_ cur
      = Err ("API request failed with status "
               ++ Itoa (StatusCode resp) ++ ": " ++ body))
  /\ (parseJSON body = Some Null
      \/ (exists members,
             parseJSON body = Some (Object members)
             /\ noKnownKey APIError_fields members) ->
      handleResponse parseJSON syntaxError typeError resp result_ cur
      = Err "API error: ").
Proof.
  intros Hb Hcode. split; [now apply (handleResponse_non_2xx_err _ _ _ body)|].
  unfold handleResponse, Unmarshal.
  rewrite Hb, (non2xx_guard _ Hcode). split.
  - now intros ->.
  - intros [-> | (members & -> & Hk)]; [reflexivity|].
    unfold APIError_dec. now rewrite decStruct_unknown_keys.
Qed.




(** X9.  [DeleteRecord] succeeds on every answer with a 2xx status
    whose body can be read, whatever the body is: it is not parsed. *)
Theorem DeleteRecord_ignores_body (c : APIClient) (id : string)
        (resp : HTTPResponse) (body : string) :
  newRequestError "DELETE" (Client_BaseURL c ++ "/records/" ++ id) = None ->
  Do (requestFor c "DELETE" ("/records/" ++ id) NoBody) = Ok resp ->
  is2xx (StatusCode resp) ->
  Resp_Body resp = Ok body ->
  Client_DeleteRecord parseJSON syntaxError typeError newRequestError Do
                      c id
  = (Ok tt, [requestFor c "DELETE" ("/records/" ++ id) NoBody]).
Proof.
  intros Hn Hd Hc Hb.
  unfold Client_DeleteRecord, makeRequest, requestFor in *.
  rewrite Hn, Hd. unfold handleResponse.
  now rewrite Hb, (is2xx_guard _ Hc).
Qed.

(** X10.  A 2xx answer to the record listing whose document is [null],
    or an object without a "records" member, or with "records" set to
    [null], is read as no records at all, not as an error. *)
Theorem GetAllRecords_missing_records (c : APIClient) (zoneID : string)
        (resp : HTTPResponse) (body : string) :
  newRequestError "GET"
    (Client_BaseURL c ++ "/records?zone_id=" ++ zoneID) = None ->
  Do (requestFor c "GET" ("/records?zone_id=" ++ zoneID) NoBody)
  = Ok resp ->
  is2xx (StatusCode resp) ->
  Resp_Body resp = Ok body ->
  parseJSON body = Some Null
  \/ parseJSON body = Some (Object [("records", Null)])
  \/ (exists members,
         parseJSON body = Some (Object members)
         /\ noKnownKey RecordsResponse_fields members) ->
  fst (Client_GetAllRecords parseJSON syntaxError typeError
                            newRequestError Do c zoneID)
  = Ok [].
Proof.
  intros Hn Hd Hc Hb Hdoc.
  unfold Client_GetAllRecords, makeRequest, requestFor in *.
  cbv zeta. rewrite Hn, Hd. unfold handleResponse, Unmarshal.
  rewrite Hb, (is2xx_guard _ Hc).
  destruct Hdoc as [-> | [-> | (members & -> & Hk)]]; try reflexivity.
  unfold RecordsResponse_dec. now rewrite decStruct_unknown_keys.
Qed.

End ClientContract.

(* ================================================================== *)
(** * The bridge over the client, and [main] *)

Section WiringContract.

Context {Time : Type}.
Variable Time_zero : Time.
Variable Time_UnmarshalJSON : json.value -> option Time.
Variable parseJSON : string -> option json.value.
Variable syntaxError : string -> string.
Variable typeError : string -> string.
Variable newRequestError : string -> string -> option string.
Variable net : list Call -> HTTPRequest -> result HTTPResponse.

(** X11.  End to end: when the network fails on the zone listing, or
    the provider answers it with a status that is not 2xx (a refused
    API key, say), an authenticated and validated request is answered
    "911" with the status 200 after that one call; no record is
    listed or written. *)
Theorem provider_refusal_end_to_end
        (c : APIClient) (u p po : string) (r : http.Request)
        (tr : list Call) :
  let s := NewDynDNSServer
             (clientOver Time_zero Time_UnmarshalJSON parseJSON
                         syntaxError typeError newRequestError net c)
             u p po in
  authenticated s r ->
  validated r ->
  newRequestError "GET" (Client_BaseURL c ++ "/zones") = None ->
  (exists err, net tr (requestFor c "GET" "/zones" NoBody) = Err err)
  \/ (exists resp body,
         net tr (requestFor c "GET" "/zones" NoBody) = Ok resp
         /\ Resp_Body resp = Ok body
         /\ ~ is2xx (StatusCode resp)) ->
  handleUpdate s http.NewRecorder r tr
  = (http.Write "911" http.NewRecorder, (tr ++ [CallGetZones])%list)
  /\ http.Code (http.Write "911" http.NewRecorder) = http.StatusOK.
Proof.
  intros s Ha Hv Hn Hnet. split; [|reflexivity].
  assert (exists err, GetZones (client s) tr = Err err) as [err Hz].
  { cbn [s NewDynDNSServer client clientOver GetZones].
    unfold Client_GetZones, makeRequest. rewrite Hn.
    fold (requestFor c "GET" "/zones" NoBody).
    destruct Hnet as [[e ->] | (resp & body & -> & Hb & Hc)].
    - eexists. reflexivity.
    - destruct (handleResponse_non_2xx_err parseJSON syntaxError typeError
                  resp
                  (Some (ZonesResponse_dec Time_zero Time_UnmarshalJSON))
                  ZonesResponse_zero body Hb Hc) as [e ->].
      eexists. reflexivity. }
  assert (forall ip t,
            updateDNSRecord s (hostnameOf r) ip t tr
            = (Some ("failed to get zones: " ++ err),
               (tr ++ [CallGetZones])%list)) as Hrun.
  { intros ip t. rewrite updateDNSRecord_run. cbv zeta. now rewrite Hz. }
  rewrite (handleUpdate_validated s _ r tr Ha Hv). unfold lane.
  destruct Hv as (_ & _ & _ & _ & Hsome).
  destruct (String.eqb_spec (myipOf r) "") as [E4|E4].
  - destruct (String.eqb_spec (myipv6Of r) "") as [E6|E6].
    + exfalso. now apply Hsome.
    + unfold ret. now rewrite Hrun.
  - now rewrite Hrun.
Qed.

End WiringContract.

(** What [main] has read from the environment when it starts a
    server. *)
Lemma main_Serve_inv (Getenv : string -> string) c u p po :
  main Getenv = Serve c u p po ->
  Getenv "HETZNER_DNS_API_KEY" <> ""
  /\ c = NewClient (Getenv "HETZNER_DNS_API_KEY")
  /\ p = Getenv "DYNDNS_PASSWORD"
  /\ u = (if String.eqb (Getenv "DYNDNS_USERNAME") "" then "admin"
          else Getenv "DYNDNS_USERNAME")
  /\ po = (if String.eqb (Getenv "DYNDNS_PORT") "" then "8080"
           else Getenv "DYNDNS_PORT")
  /\ u <> "" /\ p <> "" /\ po <> "".
Proof.
  unfold main.
  destruct (String.eqb_spec (Getenv "HETZNER_DNS_API_KEY") "") as [Ek|Ek];
    [discriminate|].
  destruct (String.eqb_spec (Getenv "DYNDNS_PASSWORD") "") as [Ep|Ep];
    [discriminate|].
  intros [= <- <- <- <-]. repeat split; try assumption.
  - destruct (String.eqb_spec (Getenv "DYNDNS_USERNAME") "");
      [discriminate | assumption].
  - destruct (String.eqb_spec (Getenv "DYNDNS_PORT") "");
      [discriminate | assumption].
Qed.

(** X12.  [main] starts a server exactly when the API key and the
    password are set in the environment, and stops with [log.Fatal]
    otherwise.  The server it starts has the user name of the
    environment, or "admin", the port of the environment, or "8080",
    a client for the API key on the base URL of the provider, and
    neither its user name nor its password is empty. *)
Theorem main_configuration (Getenv : string -> string) :
  ((exists c u p po, main Getenv = Serve c u p po) <->
   Getenv "HETZNER_DNS_API_KEY" <> "" /\ Getenv "DYNDNS_PASSWORD" <> "")
  /\ (forall c u p po,
         main Getenv = Serve c u p po ->
         c = NewClient (Getenv "HETZNER_DNS_API_KEY")
         /\ Client_BaseURL c = BaseURL
         /\ p = Getenv "DYNDNS_PASSWORD"
         /\ u = (if String.eqb (Getenv "DYNDNS_USERNAME") "" then "admin"
                 else Getenv "DYNDNS_USERNAME")
         /\ po = (if String.eqb (Getenv "DYNDNS_PORT") "" then "8080"
                  else Getenv "DYNDNS_PORT")
         /\ u <> "" /\ p <> "" /\ po <> "").
Proof.
  split.
  - split.
    + intros (c & u & p & po & H).
      destruct (main_Serve_inv Getenv c u p po H)
        as (Hk & _ & -> & _ & _ & _ & Hp & _). now split.
    + intros [Hk Hp]. unfold main.
      apply String.eqb_neq in Hk, Hp. rewrite Hk, Hp. repeat eexists.
  - intros c u p po H.
    destruct (main_Serve_inv Getenv c u p po H)
      as (_ & -> & -> & -> & -> & Hu & Hp & Hpo).
    now repeat split.
Qed.

Section ServedServer.

Context {Time : Type}.

(** X13.  No server that [main] starts lets a request in with an empty
    password or an empty user name, whatever the environment: such a
    request is answered 401 and no call goes to the provider. *)
Theorem served_server_refuses_empty_credentials
        (Getenv : string -> string) (c : APIClient) (u p po : string)
        (provider : Client Time) (r : http.Request) (tr : list Call)
        (user pass : string) (ok : bool) :
  main Getenv = Serve c u p po ->
  http.BasicAuth r = (user, pass, ok) ->
  user = "" \/ pass = "" ->
  handleUpdate (NewDynDNSServer provider u p po) http.NewRecorder r tr
  = (http.Error
       (http.Header_Set "WWW-Authenticate" challenge http.NewRecorder)
       "Unauthorized" http.StatusUnauthorized, tr).
Proof.
  intros Hmain Hb Hempty.
  destruct (main_Serve_inv Getenv c u p po Hmain)
    as (_ & _ & _ & _ & _ & Hu & Hp & _).
  apply handleUpdate_unauthorized.
  intros (user' & pass' & Hb' & Hu' & Hp'). rewrite Hb in Hb'.
  injection Hb' as <- <-. cbn in Hu', Hp'.
  destruct Hempty; congruence.
Qed.

End ServedServer.

(* ------------------------------------------------------------------ *)
(** ** Examples *)

(** A 404 with the body [{}]: the error does not name the status. *)
Lemma handleResponse_non_2xx_witness :
  handleResponse parseExamples (fun b => b) (fun b => b)
                 {| StatusCode := 404; Resp_Body := Ok "{}" |}
                 (Some RecordResponse_dec) RecordResponse_zero
  = Err "API error: ".
Proof.
  apply (proj2 (proj2 (handleResponse_non_2xx
                         parseExamples (fun b => b) (fun b => b)
                         {| StatusCode := 404; Resp_Body := Ok "{}" |}
                         (Some RecordResponse_dec) RecordResponse_zero
                         "{}" eq_refl
                         (fun H : is2xx 404 =>
                            Z.lt_irrefl _ (Z.lt_trans _ _ _ (proj2 H)
                                             (eq_refl : (300 < 404)%Z)))))).
  right. exists []. split; [reflexivity | intros k v []].
Defined.

(** [TestDeleteRecord]: a 204 without a body. *)
Lemma DeleteRecord_ignores_body_witness :
  Client_DeleteRecord parseExamples (fun b => b) (fun b => b)
    (fun _ _ => None)
    (constantNet {| StatusCode := 204; Resp_Body := Ok "" |})
    (NewClient "test-api-key") "123"
  = (Ok tt,
     [requestFor (NewClient "test-api-key") "DELETE" "/records/123"
                 NoBody]).
Proof.
  apply (DeleteRecord_ignores_body
           parseExamples (fun b => b) (fun b => b) (fun _ _ => None)
           (constantNet {| StatusCode := 204; Resp_Body := Ok "" |})
           (NewClient "test-api-key") "123"
           {| StatusCode := 204; Resp_Body := Ok "" |} "").
  - reflexivity.
  - reflexivity.
  - split; [intros H; discriminate H | reflexivity].
  - reflexivity.
Defined.

(** A 200 with the body [{}] lists no records. *)
Lemma GetAllRecords_missing_records_witness :
  fst (Client_GetAllRecords parseExamples (fun b => b) (fun b => b)
         (fun _ _ => None)
         (constantNet {| StatusCode := 200; Resp_Body := Ok "{}" |})
         (NewClient "test-api-key") "zone123")
  = Ok [].
Proof.
  apply (GetAllRecords_missing_records
           parseExamples (fun b => b) (fun b => b) (fun _ _ => None)
           (constantNet {| StatusCode := 200; Resp_Body := Ok "{}" |})
           (NewClient "test-api-key") "zone123"
           {| StatusCode := 200; Resp_Body := Ok "{}" |} "{}").
  - reflexivity.
  - reflexivity.
  - split; [intros H; discriminate H | reflexivity].
  - reflexivity.
  - right; right. exists []. split; [reflexivity | intros k v []].
Defined.

(** A provider that answers 401 to everything. *)
Lemma provider_refusal_end_to_end_witness :
  handleUpdate
    (NewDynDNSServer
       (clientOver tt (fun _ => None) parseExamples (fun b => b)
                   (fun b => b) (fun _ _ => None)
                   (fun _ =>
                      constantNet {| StatusCode := 401;
                                     Resp_Body := Ok "{}" |})
                   (NewClient "wrong-key"))
       "admin" "password" "8080")
    http.NewRecorder
    (Fixtures.request [("hostname", "test.example.com");
                       ("myip", "1.2.3.4")]) []
  = (http.Write "911" http.NewRecorder, [CallGetZones])
  /\ http.Code (http.Write "911" http.NewRecorder) = http.StatusOK.
Proof.
  apply (provider_refusal_end_to_end
           tt (fun _ => None) parseExamples (fun b => b) (fun b => b)
           (fun _ _ => None)
           (fun _ =>
              constantNet {| StatusCode := 401; Resp_Body := Ok "{}" |})
           (NewClient "wrong-key") "admin" "password" "8080"
           (Fixtures.request [("hostname", "test.example.com");
                              ("myip", "1.2.3.4")]) []).
  - exists "admin", "password". repeat split.
  - repeat split.
    + apply String.eqb_neq. reflexivity.
    + apply String.eqb_neq. reflexivity.
    + right. reflexivity.
    + left. reflexivity.
    + intros [H _]. apply String.eqb_neq in H; [exact H | reflexivity].
  - reflexivity.
  - right. eexists. eexists. split; [reflexivity|].
    split; [reflexivity|]. intros [_ H]. discriminate H.
Defined.

(** The server of a minimal environment and a request with the right
    user name and no password. *)
Lemma served_server_refuses_empty_credentials_witness :
  handleUpdate
    (NewDynDNSServer (Fixtures.mockClient [] []) "admin" "secret" "8080")
    http.NewRecorder
    {| http.BasicAuth := ("admin", "", true);
       http.URL_Query := [("hostname", "test.com"); ("myip", "1.2.3.4")] |}
    []
  = (http.Error
       (http.Header_Set "WWW-Authenticate" challenge http.NewRecorder)
       "Unauthorized" http.StatusUnauthorized, []).
Proof.
  apply (served_server_refuses_empty_credentials
           minimalEnv (NewClient "token") "admin" "secret" "8080"
           (Fixtures.mockClient [] [])
           {| http.BasicAuth := ("admin", "", true);
              http.URL_Query := [("hostname", "test.com");
                                 ("myip", "1.2.3.4")] |}
           [] "admin" "" true).
  - reflexivity.
  - reflexivity.
  - right. reflexivity.
Defined.

(* ================================================================== *)
(** * The client and a provider that answers *)

Section ClientAnswers.

Import json.

Context {Time : Type}.
Variable Time_zero : Time.
Variable Time_UnmarshalJSON : value -> option Time.
Variable parseJSON : string -> option value.
Variable syntaxError : string -> string.
Variable typeError : string -> string.
Variable newRequestError : string -> string -> option string.

Lemma handleResponse_answer {T : Type}
      (Do : HTTPRequest -> result HTTPResponse) req
      (dec : value -> T -> option T) (cur x : T) resp :
  answers parseJSON Do req dec cur x ->
  Do req = Ok resp ->
  handleResponse parseJSON syntaxError typeError resp (Some dec) cur
  = Ok x.
Proof.
  intros (resp' & body & doc & Hd & Hc & Hb & Hp & Hdec) Hd'.
  rewrite Hd in Hd'. injection Hd' as <-.
  unfold handleResponse, Unmarshal.
  now rewrite Hb, (is2xx_guard _ Hc), Hp, Hdec.
Qed.


Lemma Client_GetAllRecords_answer Do c zoneID rr :
  newRequestError "GET"
    (Client_BaseURL c ++ "/records?zone_id=" ++ zoneID) = None ->
  answers parseJSON Do
          (requestFor c "GET" ("/records?zone_id=" ++ zoneID) NoBody)
          RecordsResponse_dec RecordsResponse_zero rr ->
  Client_GetAllRecords parseJSON syntaxError typeError newRequestError
                       Do c zoneID
  = (Ok (RecordsResponse_Records rr),
     [requestFor c "GET" ("/records?zone_id=" ++ zoneID) NoBody]).
Proof.
  intros Hn Ha. unfold Client_GetAllRecords, makeRequest. cbv zeta.
  rewrite Hn.
  fold (requestFor c "GET" ("/records?zone_id=" ++ zoneID) NoBody).
  pose proof Ha as (resp & _ & _ & Hd & _). rewrite Hd.
  now rewrite (handleResponse_answer Do _ _ _ rr resp Ha Hd).
Qed.



Lemma decStructs_DNSRecord (records : list DNSRecord) :
  forallb DNSRecord_wf records = true ->
  decStructs DNSRecord_dec DNSRecord_zero
             (List.map DNSRecord_Marshal records)
  = Some records.
Proof.
  induction records as [|r records IH]; [reflexivity|].
  cbn [forallb List.map decStructs]. intros H.
  apply andb_prop in H as [Hr Hrest].
  pose proof (DNSRecord_roundtrip r Hr) as Hrt.
  unfold DNSRecord_Unmarshal in Hrt. unfold DNSRecord_dec at 1.
  now rewrite Hrt, (IH Hrest).
Qed.

(** X15.  [GetAllRecords] returns the records that the provider
    lists, all of them and in the provider's order: for an answer with
    a 2xx status whose document is [{"records": [...]}] with the
    records as [json.Marshal] writes them (their strings valid UTF-8),
    the result is that list of records. *)
Theorem GetAllRecords_reads_listing Do c zoneID resp body
        (records : list DNSRecord) :
  newRequestError "GET"
    (Client_BaseURL c ++ "/records?zone_id=" ++ zoneID) = None ->
  Do (requestFor c "GET" ("/records?zone_id=" ++ zoneID) NoBody)
  = Ok resp ->
  is2xx (StatusCode resp) ->
  Resp_Body resp = Ok body ->
  parseJSON body
  = Some (Object [("records",
                   Array (List.map DNSRecord_Marshal records))]) ->
  forallb DNSRecord_wf records = true ->
  fst (Client_GetAllRecords parseJSON syntaxError typeError
                            newRequestError Do c zoneID)
  = Ok records.
Proof.
  intros Hn Hd Hc Hb Hp Hwf.
  rewrite (Client_GetAllRecords_answer Do c zoneID
             (mkRecordsResponse records) Hn); [reflexivity|].
  exists resp, body,
    (Object [("records", Array (List.map DNSRecord_Marshal records))]).
  split; [exact Hd|]. split; [exact Hc|]. split; [exact Hb|].
  split; [exact Hp|].
  unfold RecordsResponse_dec.
  cbn [decStruct fold_left fst snd].
  change (fieldIndex RecordsResponse_fields "records") with (Some 0%nat).
  cbn [RecordsResponse_setField decSlice].
  now rewrite decStructs_DNSRecord.
Qed.

Variable net : list Call -> HTTPRequest -> result HTTPResponse.


End ClientAnswers.


(** The record listing of [TestHandleUpdateWithMockClient]. *)
Lemma GetAllRecords_reads_listing_witness :
  fst (Client_GetAllRecords parseUpdateExample (fun b => b) (fun b => b)
         (fun _ _ => None) (mockNet []) (NewClient "test-api-key")
         "zone123")
  = Ok [Fixtures.record "record123" "A" "test" "1.2.3.4"].
Proof.
  apply (GetAllRecords_reads_listing
           parseUpdateExample (fun b => b) (fun b => b) (fun _ _ => None)
           (mockNet []) (NewClient "test-api-key") "zone123"
           {| StatusCode := 200; Resp_Body := Ok "records" |} "records"
           [Fixtures.record "record123" "A" "test" "1.2.3.4"]).
  - reflexivity.
  - reflexivity.
  - split; [intros H; discriminate H | reflexivity].
  - reflexivity.
  - reflexivity.
  - reflexivity.
Defined.


(* ================================================================== *)
(** * What the caller can see, and creation end to end *)

Section CallerView.

Context {Time : Type}.
Implicit Types (s : DynDNSServer Time) (r : http.Request)
         (tr : list Call).

(** X17.  The body of the answer is one of ten texts, fixed by the
    handler and the addresses of the request: the caller never sees
    the message of a provider error, nor which step failed. *)
Theorem handleUpdate_bodies s r tr :
  In (http.Body (fst (handleUpdate s http.NewRecorder r tr)))
     ["Unauthorized" ++ http.newline;
      "Missing hostname parameter" ++ http.newline;
      "Invalid IPv4 address" ++ http.newline;
      "Invalid IPv6 address" ++ http.newline;
      "No valid IP address provided or detected" ++ http.newline;
      "good";
      "911";
      "good IPv4: " ++ myipOf r;
      "good IPv6: " ++ myipv6Of r;
      "good IPv4: " ++ myipOf r ++ ", IPv6: " ++ myipv6Of r].
Proof.
  destruct (authenticated_dec s r) as [Ha|Hna].
  2:{ rewrite handleUpdate_unauthorized by assumption. now left. }
  destruct (String.eqb_spec (hostnameOf r) "") as [Hh|Hh].
  { rewrite (handleUpdate_missing_hostname s _ r tr Ha Hh).
    right; now left. }
  destruct (String.eqb_spec (offlineOf r) "yes") as [Ho|Ho].
  { rewrite (handleUpdate_offline s _ r tr Ha Hh Ho).
    do 5 right; now left. }
  rewrite (handleUpdate_authorized s _ r tr Ha Hh Ho).
  destruct (negb (String.eqb (myipOf r) "")
            && negb (isValidIPv4 (myipOf r)));
    [do 2 right; now left|].
  destruct (negb (String.eqb (myipv6Of r) "")
            && negb (isValidIPv6 (myipv6Of r)));
    [do 3 right; now left|].
  destruct (String.eqb (myipOf r) "") eqn:E4;
    destruct (String.eqb (myipv6Of r) "") eqn:E6; cbn [andb];
    try (do 4 right; now left);
    destruct (lane s (hostnameOf r) (myipOf r) "A" tr) as [[e|] tr1];
    try (do 6 right; now left);
    destruct (lane s (hostnameOf r) (myipv6Of r) "AAAA" tr1)
      as [[e|] tr2];
    try (do 6 right; now left).
  - do 8 right; now left.
  - do 7 right; now left.
  - do 9 right; now left.
Qed.

End CallerView.

Section CreateEndToEnd.

Import json.

Context {Time : Type}.
Variable Time_zero : Time.
Variable Time_UnmarshalJSON : value -> option Time.
Variable parseJSON : string -> option value.
Variable syntaxError : string -> string.
Variable typeError : string -> string.
Variable newRequestError : string -> string -> option string.
Variable net : list Call -> HTTPRequest -> result HTTPResponse.



End CreateEndToEnd.

